(** * macOS compatibility table: fetch, cache and verdict

  A shallow embedding of [src/macos_compatibility.cpp] (the osquery table
  plugin [MacOSCompatibilityTable]) and the properties of its
  fetch / cache / compare logic.

  Layout:
  - [Strings]: the two [std::string] members the plugin uses
    ([find], [substr]);
  - [Json]: the part of [nlohmann::json] the plugin touches
    (non-const [operator[]], [contains], [empty], conversion to string);
  - [Store]: the two cache files and the cache directory;
  - the plugin itself: [ensureCacheDir], [readFile], [writeFile],
    [fetchSofaJson], [generate];
  - the properties. *)

From stdpp Require Import base option strings gmap list.
From Stdlib Require Import Ascii ZArith Lia.

Local Open Scope string_scope.
Local Open Scope Z_scope.

(** ** std::string *)

Module Strings.

(** [s.find(needle)]: position of the first occurrence of [needle] in
    [s]; [None] stands for [std::string::npos]. *)
Fixpoint find (needle s : string) : option nat :=
  if String.prefix needle s then Some 0%nat
  else match s with
       | EmptyString => None
       | String _ s' => S <$> find needle s'
       end.

(** [s.substr(pos, count)] for [pos <= s.size()]: the characters from
    [pos], at most [count] of them; a [count] of [npos] ([None]) takes
    the rest of the string.  The only call of the plugin has [pos = 0],
    where [substr] cannot throw. *)
Definition substr (s : string) (pos : nat) (count : option nat) : string :=
  let avail := (String.length s - pos)%nat in
  String.substring pos (from_option (Nat.min avail) avail count) s.

Definition empty (s : string) : bool :=
  match s with EmptyString => true | String _ _ => false end.

(** [c] does not occur in [s]. *)
Fixpoint free_of (c : ascii) (s : string) : Prop :=
  match s with
  | EmptyString => True
  | String a s' => a ≠ c ∧ free_of c s'
  end.

End Strings.

(** ** nlohmann::json *)

Module Json.

(** What [e.what()] returns, with the numeric id of the exception. *)
Record exception := Exception { id : nat; what : string }.

(** Fallible library calls: [inl e] is [throw e]. *)
Definition result (A : Type) : Type := exception + A.

Local Unset Elimination Schemes.
(** A parsed value.  The default [object_t] is a [std::map] keyed by
    strings.  The three number kinds share one constructor: the plugin
    never reads a number, and all of them have the type name [number]. *)
Inductive json : Type :=
| JNull
| JBool (b : bool)
| JNumber (n : Z)
| JString (s : string)
| JArray (l : list json)
| JObject (m : gmap string json).
Local Set Elimination Schemes.

Definition type_name (j : json) : string :=
  match j with
  | JNull => "null"
  | JBool _ => "boolean"
  | JNumber _ => "number"
  | JString _ => "string"
  | JArray _ => "array"
  | JObject _ => "object"
  end.

Definition type_error_302 (j : json) : exception :=
  Exception 302
    ("[json.exception.type_error.302] type must be string, but is "
     +:+ type_name j).

Definition type_error_305 (argument : string) (j : json) : exception :=
  Exception 305
    ("[json.exception.type_error.305] cannot use operator[] with a "
     +:+ argument +:+ " argument with " +:+ type_name j).

(** Non-const [j[key]].  On [null] the value first becomes an empty
    object; on an object a missing key is inserted with value [null].
    The inserted [null] is what any later read of the same path sees, so
    reading [null] for a missing key is all the plugin can observe. *)
Definition at_key (key : string) (j : json) : result json :=
  match j with
  | JNull => inr JNull
  | JObject m => inr (default JNull (m !! key))
  | _ => inl (type_error_305 "string" j)
  end.

(** Non-const [j[idx]].  On [null] the value first becomes an empty
    array; an array shorter than [idx + 1] is filled up with [null]. *)
Definition at_index (idx : nat) (j : json) : result json :=
  match j with
  | JNull => inr JNull
  | JArray l => inr (default JNull (l !! idx))
  | _ => inl (type_error_305 "numeric" j)
  end.

(** [j.contains(key)]: false on anything but an object. *)
Definition contains (key : string) (j : json) : bool :=
  match j with
  | JObject m => bool_decide (is_Some (m !! key))
  | _ => false
  end.

(** [j.empty()]: [null] is empty, a container is empty when it has no
    element, every other value is not. *)
Definition empty (j : json) : bool :=
  match j with
  | JNull => true
  | JArray l => bool_decide (length l = 0%nat)
  | JObject m => bool_decide (size m = 0%nat)
  | _ => false
  end.

(** Conversion to [std::string] ([get<std::string>()]). *)
Definition get_string (j : json) : result string :=
  match j with
  | JString s => inr s
  | _ => inl (type_error_302 j)
  end.

End Json.

Import Json.

(** ** The cache store and the outside world *)

(** Persisted state: the files the process can read, by path, and the
    directories that exist. *)
Record Store := MkStore {
  files : gmap string string;
  dirs : gset string;
}.

Definition CURLcode : Type := nat.
Definition CURLE_OK : CURLcode := 0%nat.

(** What the plugin sets on the curl handle. *)
Record Request := MkRequest {
  url : string;
  useragent : string;
  httpheader : list string;
}.

(** What one [curl_easy_perform] leaves behind: its return code, the bytes
    [WriteCallback] appended to [readBuffer], and what the two
    [curl_easy_getinfo] calls report ([new_etag] is [Some t] when the call
    returns [CURLE_OK] with a non-null pointer to [t]). *)
Record Transfer := MkTransfer {
  res : CURLcode;
  readBuffer : string;
  http_code : Z;
  new_etag : option string;
}.

(** Everything outside the plugin: the two osquery tables it selects from
    (a row is a [std::map] from column to value), the transport, and
    whether [mkdir] and the opening of an [std::ofstream] succeed. *)
Record World := MkWorld {
  os_version : list (gmap string string);
  system_info : list (gmap string string);
  mkdir : string → bool;
  ofstream_open : string → bool;
  curl_easy_init : bool;
  curl_easy_perform : Request → Transfer;
}.

(** One row of the table, by the columns of [columns()]. *)
Record TableRow := MkRow {
  system_version : string;
  system_os_major : string;
  model_identifier : string;
  latest_macos : string;
  latest_compatible_macos : string;
  is_compatible : string;
  status : string;
}.

(** How a call of [generate] ends: it returns its rows, or the
    [std::out_of_range] of [std::map::at] leaves it. *)
Inductive Outcome :=
| Returned (results : list TableRow)
| Thrown_out_of_range.

(** ** The try block: a local [model_identifier] and exceptions *)

#[export] Instance result_ret : MRet result := λ A a, inr a.
#[export] Instance result_bind : MBind result :=
  λ A B f m, match m with inl e => inl e | inr a => f a end.

(** A computation of the try block reads and writes the local variable
    [model_identifier] and may throw; the variable outlives the throw, and
    the handler reads it. *)
Definition Try (A : Type) : Type := string → string * result A.

#[export] Instance Try_ret : MRet Try := λ A a mid, (mid, inr a).
#[export] Instance Try_bind : MBind Try :=
  λ A B f m mid,
    match m mid with
    | (mid', inl e) => (mid', inl e)
    | (mid', inr a) => f a mid'
    end.

Definition call {A} (r : result A) : Try A := λ mid, (mid, r).
Definition get_model : Try string := λ mid, (mid, inr mid).
Definition set_model (v : string) : Try unit := λ _, (v, inr tt).

(** ** MacOSCompatibilityTable *)

Definition kCacheDir : string := "/private/var/tmp/sofa".
Definition kJsonCache : string := kCacheDir +:+ "/macos_data_feed.json".
Definition kEtagCache : string := kCacheDir +:+ "/macos_data_feed_etag.txt".
Definition kSofaUrl : string :=
  "https://sofafeed.macadmins.io/v1/macos_data_feed.json".
Definition kUserAgent : string := "SOFA-osquery-macOSCompatibilityCheck/1.0".

(** The write callback handed to curl: [size * nmemb] bytes of [contents]
    are appended to the buffer, and their number is returned.  [contents]
    points to at least that many bytes. *)
Definition WriteCallback (contents : string) (size nmemb : nat)
    (userp : string) : nat * string :=
  ((size * nmemb)%nat,
   userp +:+ String.substring 0 (size * nmemb) contents).

(** [access(path, F_OK) == 0] *)
Definition access (st : Store) (path : string) : bool :=
  bool_decide (path ∈ dirs st) || bool_decide (is_Some (files st !! path)).

Definition ensureCacheDir (w : World) (st : Store) : bool * Store :=
  if negb (access st kCacheDir) then
    if negb (mkdir w kCacheDir) then (false, st)
    else (true, MkStore (files st) ({[kCacheDir]} ∪ dirs st))
  else (true, st).

Definition readFile (st : Store) (filename : string) : string :=
  match files st !! filename with
  | None => ""
  | Some content => content
  end.

Definition writeFile (w : World) (st : Store) (filename content : string)
  : bool * Store :=
  if negb (ofstream_open w filename) then (false, st)
  else (true, MkStore (<[filename := content]> (files st)) (dirs st)).

Definition fetchSofaJson (w : World) (st : Store) : string * Store :=
  let '(ok, st) := ensureCacheDir w st in
  if negb ok then ("", st)
  else if negb (curl_easy_init w) then ("", st)
  else
    let etag := readFile st kEtagCache in
    let headers :=
      if negb (Strings.empty etag) then ["If-None-Match: " +:+ etag] else [] in
    let t := curl_easy_perform w (MkRequest kSofaUrl kUserAgent headers) in
    if negb (bool_decide (res t = CURLE_OK)) then ("", st)
    else
      let st :=
        match new_etag t with
        | Some new_etag => snd (writeFile w st kEtagCache new_etag)
        | None => st
        end in
      if bool_decide (http_code t = 304) then (readFile st kJsonCache, st)
      else if bool_decide (http_code t = 200) then
        (readBuffer t, snd (writeFile w st kJsonCache (readBuffer t)))
      else if negb (Strings.empty (readFile st kJsonCache)) then
        (readFile st kJsonCache, st)
      else ("", st).

(** [j["OSVersions"][0]["OSVersion"]], converted to [std::string]. *)
Definition latest_os_of (j : json) : result string :=
  versions ← at_key "OSVersions" j;
  first ← at_index 0 versions;
  version ← at_key "OSVersion" first;
  get_string version.

(** The condition of the lookup:
    [j["Models"].contains(model_identifier) &&
     !j["Models"][model_identifier]["SupportedOS"].empty()]. *)
Definition model_in_feed (j : json) (model_identifier : string) : result bool :=
  models ← at_key "Models" j;
  if contains model_identifier models then
    models ← at_key "Models" j;
    model ← at_key model_identifier models;
    supported ← at_key "SupportedOS" model;
    mret (negb (empty supported))
  else mret false.

(** [j["Models"][model_identifier]["SupportedOS"][0]], converted to
    [std::string]. *)
Definition first_supported_os (j : json) (model_identifier : string)
  : result string :=
  models ← at_key "Models" j;
  model ← at_key model_identifier models;
  supported ← at_key "SupportedOS" model;
  first ← at_index 0 supported;
  get_string first.

(** The check for a virtual model: the local [model_identifier] becomes
    the M1 Mac mini when it contains "VirtualMac". *)
Definition substitute_virtual : Try unit :=
  model_identifier ← get_model;
  if Strings.find "VirtualMac" model_identifier is Some _
  then set_model "Macmini9,1"
  else mret tt.

(** The lookup of the model in the feed: [latest_compatible_os] and
    [status] as they stand before the verdict. *)
Definition lookup_model (j : json) (model_identifier : string)
  : result (string * string) :=
  let latest_compatible_os := "Unsupported" in
  let status := "Pass" in
  found ← model_in_feed j model_identifier;
  if (found : bool) then
    latest_compatible_os ← first_supported_os j model_identifier;
    mret (latest_compatible_os, status)
  else mret (latest_compatible_os, "Unsupported Hardware").

(** The verdict: [is_compatible] and the final [status]. *)
Definition verdict (latest_os latest_compatible_os status : string)
  : bool * string :=
  let is_compatible := bool_decide (latest_os = latest_compatible_os) in
  if negb is_compatible && negb (bool_decide (status = "Unsupported Hardware"))
  then (is_compatible, "Fail")
  else (is_compatible, status).

Section Plugin.

(** [json::parse] of the library: the parsed value, or the
    [parse_error] it throws. *)
Context (json_parse : string → result json).

(** The body of the try block of [generate]. *)
Definition try_block (jsonData system_version system_os_major : string)
  : Try TableRow :=
  j ← call (json_parse jsonData);
  latest_os ← call (latest_os_of j);
  substitute_virtual;;
  model_identifier ← get_model;
  '(latest_compatible_os, status) ← call (lookup_model j model_identifier);
  let '(is_compatible, status) :=
    verdict latest_os latest_compatible_os status in
  mret (MkRow system_version system_os_major model_identifier
          latest_os latest_compatible_os
          (if is_compatible then "1" else "0") status).

Definition generate (w : World) (st : Store) : Outcome * Store :=
  match os_version w with
  | [] => (Returned [], st)
  | os_front :: _ =>
    match os_front !! "product_version" with
    | None => (Thrown_out_of_range, st)
    | Some system_version =>
      let system_os_major :=
        Strings.substr system_version 0 (Strings.find "." system_version) in
      match system_info w with
      | [] => (Returned [], st)
      | sys_front :: _ =>
        match sys_front !! "hardware_model" with
        | None => (Thrown_out_of_range, st)
        | Some model_identifier =>
          let '(jsonData, st) := fetchSofaJson w st in
          if Strings.empty jsonData then
            (Returned [MkRow system_version system_os_major model_identifier
                         "Unknown" "Unknown" "-1" "Could not obtain data"], st)
          else
            match try_block jsonData system_version system_os_major
                    model_identifier with
            | (_, inr r) => (Returned [r], st)
            | (model_identifier, inl e) =>
              (Returned [MkRow system_version system_os_major model_identifier
                           "Error" "Error" "-1"
                           ("Error parsing data: " +:+ what e)], st)
            end
        end
      end
    end
  end.

End Plugin.

(** ** Vocabulary of the properties *)

(** The host facts are available: the first row of [os_version] has a
    [product_version] and the first row of [system_info] a
    [hardware_model]. *)
Definition host_facts (w : World) (version model : string) : Prop :=
  ∃ os sys,
    head (os_version w) = Some os ∧ os !! "product_version" = Some version ∧
    head (system_info w) = Some sys ∧ sys !! "hardware_model" = Some model.

(** The request [fetchSofaJson] sends from a store, and the transfer the
    transport answers it with. *)
Definition sent_request (st : Store) : Request :=
  MkRequest kSofaUrl kUserAgent
    (if negb (Strings.empty (readFile st kEtagCache))
     then ["If-None-Match: " +:+ readFile st kEtagCache] else []).

Definition transfer (w : World) (st : Store) : Transfer :=
  curl_easy_perform w (sent_request st).

(** The fetcher gets as far as the transport call. *)
Definition transport_reached (w : World) (st : Store) : Prop :=
  (ensureCacheDir w st).1 = true ∧ curl_easy_init w = true.

(** The store once the token of the response, if any, is written. *)
Definition token_stored (w : World) (st : Store) : Store :=
  match new_etag (transfer w st) with
  | Some tok => (writeFile w (ensureCacheDir w st).2 kEtagCache tok).2
  | None => (ensureCacheDir w st).2
  end.

Definition os_major (version : string) : string :=
  Strings.substr version 0 (Strings.find "." version).

(** The model the lookup runs on. *)
Definition substituted (model : string) : string :=
  if Strings.find "VirtualMac" model is Some _ then "Macmini9,1" else model.

Definition unknown_row (version model : string) : TableRow :=
  MkRow version (os_major version) model
    "Unknown" "Unknown" "-1" "Could not obtain data".

Definition error_row (version model : string) (e : exception) : TableRow :=
  MkRow version (os_major version) model
    "Error" "Error" "-1" ("Error parsing data: " +:+ what e).

Definition verdict_row (version model latest compatible status : string)
  : TableRow :=
  MkRow version (os_major version) model latest compatible
    (if (verdict latest compatible status).1 then "1" else "0")
    (verdict latest compatible status).2.

(** The document holds the model mapping [models]. *)
Definition feed_models (j : json) (models : gmap string json) : Prop :=
  ∃ top, j = JObject top ∧ top !! "Models" = Some (JObject models).

(** The mapping gives [model] the supported-OS sequence [seq]. *)
Definition supported_sequence (models : gmap string json) (model : string)
    (seq : list json) : Prop :=
  ∃ entry, models !! model = Some (JObject entry) ∧
           entry !! "SupportedOS" = Some (JArray seq).

(** The first record of the OS-version sequence names [latest]. *)
Definition names_latest (j : json) (latest : string) : Prop :=
  ∃ top first rest,
    j = JObject top ∧
    top !! "OSVersions" = Some (JArray (JObject first :: rest)) ∧
    first !! "OSVersion" = Some (JString latest).

(** The shape the specification gives a feed document: a sequence of
    OS-version records and a mapping of models. *)
Definition feed_shaped (j : json) : Prop :=
  ∃ top versions models,
    j = JObject top ∧
    top !! "OSVersions" = Some (JArray versions) ∧
    top !! "Models" = Some (JObject models).

(** One transfer as the write callback sees it: curl calls it once per
    chunk [(contents, size, nmemb)], in order, on the same buffer.  The
    result is what the calls returned and the buffer they leave. *)
Fixpoint deliver (chunks : list (string * nat * nat)) (userp : string)
  : list nat * string :=
  match chunks with
  | [] => ([], userp)
  | (contents, size, nmemb) :: chunks =>
    let '(written, userp) := WriteCallback contents size nmemb userp in
    let '(rest, userp) := deliver chunks userp in
    (written :: rest, userp)
  end.

(** The chunk holds exactly the bytes curl announces. *)
Definition chunk_sized (chunk : string * nat * nat) : Prop :=
  String.length chunk.1.1 = (chunk.1.2 * chunk.2)%nat.

(** Two worlds that differ at most in their transport and tables. *)
Definition same_host_calls (w w' : World) : Prop :=
  (∀ p, mkdir w p = mkdir w' p) ∧
  (∀ p, ofstream_open w p = ofstream_open w' p) ∧
  curl_easy_init w = curl_easy_init w'.

(** ** Sample feeds, hosts and stores *)

Module Sample.

Definition quoted (s : string) : string :=
  String "034"%char (s +:+ String "034"%char "").

(** [{"OSVersions":[{"OSVersion":latest}]] *)
Definition os_versions_text (latest : string) : string :=
  quoted "OSVersions" +:+ ":[{" +:+ quoted "OSVersion" +:+ ":"
  +:+ quoted latest +:+ "}]".

(** ["model":{"SupportedOS":[first]}] *)
Definition model_text (model first : string) : string :=
  quoted model +:+ ":{" +:+ quoted "SupportedOS" +:+ ":[" +:+ first +:+ "]}".

Definition os_versions_value (latest : string) : json :=
  JArray [JObject {[ "OSVersion" := JString latest ]}].

Definition model_value (first : json) : json :=
  JObject {[ "SupportedOS" := JArray [first] ]}.

(** Latest release 15.0; a Mac14,7 held at 14.5 and a Macmini9,1 on 15.0. *)
Definition feed_text : string :=
  "{" +:+ os_versions_text "15.0" +:+ "," +:+ quoted "Models" +:+ ":{"
  +:+ model_text "Mac14,7" (quoted "14.5") +:+ ","
  +:+ model_text "Macmini9,1" (quoted "15.0") +:+ "}}".

Definition feed_value : json :=
  JObject {[ "OSVersions" := os_versions_value "15.0";
             "Models" := JObject {[ "Mac14,7" := model_value (JString "14.5");
                                    "Macmini9,1" := model_value (JString "15.0") ]} ]}.

(** A feed without the model mapping. *)
Definition no_models_text : string := "{" +:+ os_versions_text "15.0" +:+ "}".

Definition no_models_value : json :=
  JObject {[ "OSVersions" := os_versions_value "15.0" ]}.

(** A feed whose latest release carries the label "Unsupported". *)
Definition odd_label_text : string :=
  "{" +:+ os_versions_text "Unsupported" +:+ "," +:+ quoted "Models" +:+ ":{}}".

Definition odd_label_value : json :=
  JObject {[ "OSVersions" := os_versions_value "Unsupported";
             "Models" := JObject ∅ ]}.

(** A feed whose first supported release of Mac14,7 is the number 15. *)
Definition number_text : string :=
  "{" +:+ os_versions_text "15.0" +:+ "," +:+ quoted "Models" +:+ ":{"
  +:+ model_text "Mac14,7" "15" +:+ "}}".

Definition number_value : json :=
  JObject {[ "OSVersions" := os_versions_value "15.0";
             "Models" := JObject {[ "Mac14,7" := model_value (JNumber 15) ]} ]}.

Definition garbage_text : string := "<html>Bad Gateway</html>".

Definition syntax_error : exception :=
  Exception 101
    "[json.exception.parse_error.101] parse error at line 1, column 1: syntax error while parsing value - invalid literal; last read: '<'".

(** [json::parse] on the sample texts. *)
Definition parse (text : string) : result json :=
  if bool_decide (text = feed_text) then inr feed_value
  else if bool_decide (text = no_models_text) then inr no_models_value
  else if bool_decide (text = odd_label_text) then inr odd_label_value
  else if bool_decide (text = number_text) then inr number_value
  else inl syntax_error.

(** A host and a transport that answers every request with [t]. *)
Definition world (version model : string) (t : Transfer) : World :=
  MkWorld [ {[ "product_version" := version ]} ]
          [ {[ "hardware_model" := model ]} ]
          (λ _, true) (λ _, true) true (λ _, t).

Definition ok (code : Z) (body : string) (token : option string) : Transfer :=
  MkTransfer CURLE_OK body code token.

(** [CURLE_COULDNT_RESOLVE_HOST] *)
Definition offline : Transfer := MkTransfer 6%nat "" 0 None.

Definition fresh_store : Store := MkStore ∅ ∅.

Definition cached (body token : string) : Store :=
  MkStore {[ kJsonCache := body; kEtagCache := token ]} {[ kCacheDir ]}.

(** A host for which [curl_easy_init] gives no handle. *)
Definition no_handle (version model : string) : World :=
  MkWorld [ {[ "product_version" := version ]} ]
          [ {[ "hardware_model" := model ]} ]
          (λ _, true) (λ _, true) false (λ _, offline).

(** A host on which no file can be opened for writing. *)
Definition read_only (version model : string) (t : Transfer) : World :=
  MkWorld [ {[ "product_version" := version ]} ]
          [ {[ "hardware_model" := model ]} ]
          (λ _, true) (λ _, false) true (λ _, t).

(** A host whose two tables are empty, and whose [mkdir] fails. *)
Definition no_tables : World :=
  MkWorld [] [] (λ _, false) (λ _, true) true (λ _, offline).

(** A server that holds the sample feed under the token W/1: a 304 for a
    request that carries the token, the feed otherwise. *)
Definition server (request : Request) : Transfer :=
  if bool_decide (httpheader request = ["If-None-Match: W/1"])
  then ok 304 "" (Some "W/1")
  else ok 200 feed_text (Some "W/1").

Definition served (version model : string) : World :=
  MkWorld [ {[ "product_version" := version ]} ]
          [ {[ "hardware_model" := model ]} ]
          (λ _, true) (λ _, true) true server.

End Sample.

(** * Properties *)

(** ** Strings *)

Section StringFacts.

Import Strings.

Lemma prefix_append (needle rest : string) :
  String.prefix needle (needle +:+ rest) = true.
Proof.
  induction needle as [|c needle IH]; simpl.
  - by destruct rest.
  - destruct (ascii_dec c c); [exact IH | done].
Qed.

Lemma prefix_char (c a : ascii) (s : string) :
  String.prefix (String c "") (String a s) = bool_decide (c = a).
Proof.
  simpl. destruct (ascii_dec c a) as [->|Hne].
  - rewrite bool_decide_eq_true_2 by done. by destruct s.
  - by rewrite bool_decide_eq_false_2.
Qed.

Lemma find_unfold (needle s : string) :
  find needle s =
  if String.prefix needle s then Some 0%nat
  else match s with
       | EmptyString => None
       | String _ s' => S <$> find needle s'
       end.
Proof. by destruct s. Qed.

(** [find] reports an occurrence wherever the needle sits. *)
Lemma find_occurrence (needle pre post : string) :
  is_Some (find needle (pre +:+ needle +:+ post)).
Proof.
  induction pre as [|a pre IH].
  - change ("" +:+ needle +:+ post) with (needle +:+ post).
    rewrite find_unfold, prefix_append. eauto.
  - rewrite find_unfold.
    destruct (String.prefix needle _); [eauto|].
    simpl. destruct IH as [n ->]. simpl. eauto.
Qed.

(** The first occurrence of a character after a prefix free of it. *)
Lemma find_char_first (c : ascii) (pre post : string) :
  free_of c pre →
  find (String c "") (pre +:+ String c post) = Some (String.length pre).
Proof.
  induction pre as [|a pre IH]; intros Hfree.
  - simpl. destruct (ascii_dec c c); [by destruct post | done].
  - destruct Hfree as [Hne Hfree].
    change (String a pre +:+ String c post)
      with (String a (pre +:+ String c post)).
    cbn [find]. rewrite prefix_char, bool_decide_eq_false_2 by congruence.
    rewrite (IH Hfree). done.
Qed.

Lemma find_char_absent (c : ascii) (s : string) :
  free_of c s → find (String c "") s = None.
Proof.
  induction s as [|a s IH]; intros Hfree; [done|].
  destruct Hfree as [Hne Hfree].
  cbn [find]. rewrite prefix_char, bool_decide_eq_false_2 by congruence.
  by rewrite (IH Hfree).
Qed.

Lemma substring_all (s : string) : String.substring 0 (String.length s) s = s.
Proof. induction s as [|a s IH]; simpl; [done | by rewrite IH]. Qed.

Lemma substring_prefix (pre post : string) :
  String.substring 0 (String.length pre) (pre +:+ post) = pre.
Proof.
  induction pre as [|a pre IH]; simpl; [by destruct post | by rewrite IH].
Qed.

Lemma length_append (s t : string) :
  String.length (s +:+ t) = (String.length s + String.length t)%nat.
Proof. induction s as [|a s IH]; simpl; [done | by rewrite IH]. Qed.

Lemma substr_npos (s : string) : substr s 0 None = s.
Proof. unfold substr. simpl. rewrite Nat.sub_0_r. apply substring_all. Qed.

Lemma substr_prefix (pre post : string) :
  substr (pre +:+ post) 0 (Some (String.length pre)) = pre.
Proof.
  unfold substr. simpl. rewrite Nat.sub_0_r, length_append.
  rewrite Nat.min_r by lia. apply substring_prefix.
Qed.

(** Line 177 of the source on a version with a dot, and on one without. *)
Lemma major_before_dot (pre post : string) :
  free_of "."%char pre →
  let v := pre +:+ "." +:+ post in
  substr v 0 (find "." v) = pre.
Proof.
  intros Hfree v. subst v.
  change ("." +:+ post) with (String "."%char post).
  rewrite (find_char_first _ _ _ Hfree). apply substr_prefix.
Qed.

Lemma major_without_dot (v : string) :
  free_of "."%char v → substr v 0 (find "." v) = v.
Proof. intros Hfree. rewrite (find_char_absent _ _ Hfree). apply substr_npos. Qed.

Lemma empty_spec (s : string) : empty s = true ↔ s = "".
Proof. by destruct s. Qed.

End StringFacts.

(** ** The cache store *)

Lemma kJsonCache_ne_kEtagCache : kJsonCache ≠ kEtagCache.
Proof. by vm_compute. Qed.

Lemma ensureCacheDir_files (w : World) (st : Store) :
  files (ensureCacheDir w st).2 = files st.
Proof.
  unfold ensureCacheDir.
  destruct (access st kCacheDir), (mkdir w kCacheDir); done.
Qed.

Lemma readFile_ensureCacheDir (w : World) (st : Store) (p : string) :
  readFile (ensureCacheDir w st).2 p = readFile st p.
Proof. unfold readFile. by rewrite ensureCacheDir_files. Qed.

Lemma writeFile_lookup (w : World) (st : Store) (p q content : string) :
  files (writeFile w st p content).2 !! q =
  if bool_decide (p = q) && ofstream_open w p then Some content
  else files st !! q.
Proof.
  unfold writeFile. destruct (ofstream_open w p); simpl.
  - case_bool_decide as Hpq; simpl.
    + subst q. apply lookup_insert_eq.
    + by apply lookup_insert_ne.
  - by rewrite andb_false_r.
Qed.

Lemma readFile_writeFile_ne (w : World) (st : Store) (p q content : string) :
  p ≠ q → readFile (writeFile w st p content).2 q = readFile st q.
Proof.
  intros Hne. unfold readFile. rewrite writeFile_lookup.
  by rewrite bool_decide_eq_false_2.
Qed.

Lemma token_stored_body (w : World) (st : Store) :
  readFile (token_stored w st) kJsonCache = readFile st kJsonCache.
Proof.
  unfold token_stored. destruct (new_etag _).
  - rewrite readFile_writeFile_ne, readFile_ensureCacheDir; [done|].
    intros H. by apply kJsonCache_ne_kEtagCache.
  - apply readFile_ensureCacheDir.
Qed.

(** ** The fetcher, path by path *)

Lemma fetch_no_directory (w : World) (st : Store) :
  (ensureCacheDir w st).1 = false → fetchSofaJson w st = ("", st).
Proof.
  unfold fetchSofaJson, ensureCacheDir.
  destruct (access st kCacheDir), (mkdir w kCacheDir); simpl; done.
Qed.

Lemma fetch_no_handle (w : World) (st : Store) :
  (ensureCacheDir w st).1 = true → curl_easy_init w = false →
  fetchSofaJson w st = ("", (ensureCacheDir w st).2).
Proof.
  unfold fetchSofaJson. destruct (ensureCacheDir w st) as [ok st0]; simpl.
  by intros -> ->.
Qed.

Lemma fetch_transfer (w : World) (st : Store) :
  transport_reached w st →
  fetchSofaJson w st =
  let t := transfer w st in
  if negb (bool_decide (res t = CURLE_OK)) then ("", (ensureCacheDir w st).2)
  else
    let st1 := token_stored w st in
    if bool_decide (http_code t = 304) then (readFile st1 kJsonCache, st1)
    else if bool_decide (http_code t = 200) then
      (readBuffer t, (writeFile w st1 kJsonCache (readBuffer t)).2)
    else if negb (Strings.empty (readFile st1 kJsonCache)) then
      (readFile st1 kJsonCache, st1)
    else ("", st1).
Proof.
  intros [Hdir Hinit].
  unfold fetchSofaJson, token_stored, transfer, sent_request.
  rewrite <- (readFile_ensureCacheDir w st kEtagCache).
  destruct (ensureCacheDir w st) as [ok st0]; simpl in *.
  subst ok. rewrite Hinit. simpl. done.
Qed.

(** ** The try block and [generate] *)

Section PluginFacts.

Context (json_parse : string → result json).

Lemma try_block_cases (body version major model : string) :
  try_block json_parse body version major model =
  match json_parse body with
  | inl e => (model, inl e)
  | inr j =>
    match latest_os_of j with
    | inl e => (model, inl e)
    | inr latest =>
      match lookup_model j (substituted model) with
      | inl e => (substituted model, inl e)
      | inr (compatible, st) =>
        (substituted model,
         inr (MkRow version major (substituted model) latest compatible
                (if (verdict latest compatible st).1 then "1" else "0")
                (verdict latest compatible st).2))
      end
    end
  end.
Proof.
  unfold try_block, substituted, substitute_virtual, call, get_model, set_model,
    mbind, mret, Try_bind, Try_ret.
  destruct (json_parse body) as [e|j]; [done|].
  destruct (latest_os_of j) as [e|latest]; [done|].
  destruct (Strings.find "VirtualMac" model) as [n|];
    (destruct (lookup_model j _) as [e|[compatible st]]; [done|]);
    by destruct (verdict latest compatible st).
Qed.

Lemma generate_with_facts (w : World) (st : Store) (version model : string) :
  host_facts w version model →
  generate json_parse w st =
  let '(body, st') := fetchSofaJson w st in
  if Strings.empty body then (Returned [unknown_row version model], st')
  else
    match try_block json_parse body version (os_major version) model with
    | (_, inr r) => (Returned [r], st')
    | (model', inl e) => (Returned [error_row version model' e], st')
    end.
Proof.
  intros (os & sys & Hos & Hver & Hsys & Hmodel). unfold generate.
  destruct (os_version w) as [|os' ?]; simplify_eq/=.
  destruct (system_info w) as [|sys' ?]; simplify_eq/=.
  rewrite Hver, Hmodel. done.
Qed.

End PluginFacts.

(** ** The rows of [generate] *)

Section Rows.

Context (json_parse : string → result json).

(** Whatever path is taken, a call with host facts returns one row, and
    that row starts with the version and its major. *)
Lemma generate_single_row (w : World) (st : Store) (version model : string) :
  host_facts w version model →
  ∃ r, (generate json_parse w st).1 = Returned [r] ∧
       system_version r = version ∧ system_os_major r = os_major version.
Proof.
  intros Hfacts. rewrite (generate_with_facts _ _ _ _ _ Hfacts).
  destruct (fetchSofaJson w st) as [body st'].
  destruct (Strings.empty body); [by eexists|].
  rewrite try_block_cases.
  destruct (json_parse body) as [e|j]; [by eexists|].
  destruct (latest_os_of j) as [e|latest]; [by eexists|].
  destruct (lookup_model j _) as [e|[compatible s]]; by eexists.
Qed.

(** The row of a call whose fetch came back empty. *)
Lemma generate_unknown (w : World) (st st' : Store) (version model : string) :
  host_facts w version model →
  fetchSofaJson w st = ("", st') →
  generate json_parse w st = (Returned [unknown_row version model], st').
Proof.
  intros Hfacts Hfetch.
  by rewrite (generate_with_facts _ _ _ _ _ Hfacts), Hfetch.
Qed.

(** The row of a call whose feed parsed and named its latest release. *)
Lemma generate_evaluated (w : World) (st st' : Store)
    (version model body latest : string) (j : json) :
  host_facts w version model →
  fetchSofaJson w st = (body, st') →
  Strings.empty body = false →
  json_parse body = inr j →
  latest_os_of j = inr latest →
  generate json_parse w st =
  match lookup_model j (substituted model) with
  | inl e => (Returned [error_row version (substituted model) e], st')
  | inr (compatible, s) =>
    (Returned [verdict_row version (substituted model) latest compatible s], st')
  end.
Proof.
  intros Hfacts Hfetch Hbody Hparse Hlatest.
  rewrite (generate_with_facts _ _ _ _ _ Hfacts), Hfetch, Hbody.
  rewrite try_block_cases, Hparse, Hlatest.
  by destruct (lookup_model j _) as [e|[compatible s]].
Qed.

(** C2. With the host facts available, [generate] returns exactly one
    row: it neither returns an empty result nor several rows, and no
    exception leaves it, whether the fetch succeeds, fails or the feed
    does not parse. *)
Theorem generate_exactly_one_row (w : World) (st : Store)
    (version model : string) :
  host_facts w version model →
  ∃ r, (generate json_parse w st).1 = Returned [r].
Proof.
  intros Hfacts.
  destruct (generate_single_row w st version model Hfacts) as (r & Hr & _).
  by exists r.
Qed.

(** C7. The reported [system_os_major] is what stands before the first
    "." of the version, and the whole version when it has no ".". *)
Theorem system_os_major_before_first_dot (w : World) (st : Store)
    (version model : string) (r : TableRow) :
  host_facts w version model →
  (generate json_parse w st).1 = Returned [r] →
  (∀ pre post, version = pre +:+ "." +:+ post → Strings.free_of "."%char pre →
               system_os_major r = pre) ∧
  (Strings.free_of "."%char version → system_os_major r = version).
Proof.
  intros Hfacts Hrow.
  destruct (generate_single_row w st version model Hfacts) as (r' & Hr' & _ & Hmajor).
  rewrite Hrow in Hr'. simplify_eq. split.
  - intros pre post -> Hfree. rewrite Hmajor. by apply major_before_dot.
  - intros Hfree. rewrite Hmajor. by apply major_without_dot.
Qed.

(** C8. A model identifier with "VirtualMac" anywhere in it is replaced by
    "Macmini9,1" before the lookup in the feed: the lookup runs on
    "Macmini9,1", and the row reports "Macmini9,1" as its model. *)
Theorem virtual_model_substituted (w : World) (st st' : Store)
    (version pre post body latest : string) (j : json) :
  let model := pre +:+ "VirtualMac" +:+ post in
  host_facts w version model →
  fetchSofaJson w st = (body, st') →
  Strings.empty body = false →
  json_parse body = inr j →
  latest_os_of j = inr latest →
  ∃ r, generate json_parse w st = (Returned [r], st') ∧
       model_identifier r = "Macmini9,1" ∧
       match lookup_model j "Macmini9,1" with
       | inl e => r = error_row version "Macmini9,1" e
       | inr (compatible, s) =>
         r = verdict_row version "Macmini9,1" latest compatible s
       end.
Proof.
  intros model Hfacts Hfetch Hbody Hparse Hlatest.
  rewrite (generate_evaluated w st st' version model body latest j) by done.
  assert (substituted model = "Macmini9,1") as ->.
  { unfold substituted, model.
    by destruct (find_occurrence "VirtualMac" pre post) as [n ->]. }
  destruct (lookup_model j "Macmini9,1") as [e|[compatible s]]; by eexists.
Qed.

(** C9. When the fetch comes back empty, the "Could not obtain data" row
    carries the model identifier of the host as it is, "VirtualMac" or
    not; a row can only differ from the host in its model when a feed was
    obtained, parsed and named its latest release. *)
Theorem total_failure_keeps_model (w : World) (st : Store)
    (version model : string) :
  host_facts w version model →
  (∀ st', fetchSofaJson w st = ("", st') →
          generate json_parse w st =
          (Returned [MkRow version (os_major version) model
                       "Unknown" "Unknown" "-1" "Could not obtain data"], st')) ∧
  (∀ r, (generate json_parse w st).1 = Returned [r] →
        model_identifier r ≠ model →
        ∃ j latest,
          Strings.empty (fetchSofaJson w st).1 = false ∧
          json_parse (fetchSofaJson w st).1 = inr j ∧
          latest_os_of j = inr latest ∧
          model_identifier r = "Macmini9,1").
Proof.
  intros Hfacts. split.
  - intros st' Hfetch. by apply generate_unknown.
  - intros r. rewrite (generate_with_facts _ _ _ _ _ Hfacts).
    destruct (fetchSofaJson w st) as [body st']; simpl.
    destruct (Strings.empty body); [by intros [= <-]|].
    rewrite try_block_cases.
    destruct (json_parse body) as [e|j]; [by intros [= <-]|].
    destruct (latest_os_of j) as [e|latest] eqn:Hlatest; [by intros [= <-]|].
    unfold substituted.
    destruct (Strings.find "VirtualMac" model);
      destruct (lookup_model j _) as [e|[compatible s]];
      intros [= <-] Hne; simpl in *; try done; by exists j, latest.
Qed.

End Rows.

(** ** The fetcher and the cache *)

(** A response other than 200 and 304 falls back on the cached body. *)
Lemma fetch_failed_status (w : World) (st : Store) :
  transport_reached w st →
  res (transfer w st) = CURLE_OK →
  http_code (transfer w st) ≠ 304 → http_code (transfer w st) ≠ 200 →
  fetchSofaJson w st = (readFile st kJsonCache, token_stored w st).
Proof.
  intros Hreached Hres H304 H200. rewrite (fetch_transfer _ _ Hreached). simpl.
  rewrite Hres, token_stored_body. simpl.
  rewrite !bool_decide_eq_false_2 by done.
  by destruct (readFile st kJsonCache).
Qed.

(** A failed transport call returns the empty string at once. *)
Lemma fetch_network_error (w : World) (st : Store) :
  transport_reached w st →
  res (transfer w st) ≠ CURLE_OK →
  fetchSofaJson w st = ("", (ensureCacheDir w st).2).
Proof.
  intros Hreached Hres. rewrite (fetch_transfer _ _ Hreached). simpl.
  by rewrite bool_decide_eq_false_2.
Qed.

Lemma token_stored_lookup (w : World) (st : Store) (p : string) :
  files (token_stored w st) !! p =
  match new_etag (transfer w st) with
  | Some tok =>
    if bool_decide (kEtagCache = p) && ofstream_open w kEtagCache then Some tok
    else files st !! p
  | None => files st !! p
  end.
Proof.
  unfold token_stored. destruct (new_etag _).
  - by rewrite writeFile_lookup, ensureCacheDir_files.
  - by rewrite ensureCacheDir_files.
Qed.

(** The files of the store after a fetch, path by path. *)
Lemma fetch_files (w : World) (st : Store) (p : string) :
  transport_reached w st →
  res (transfer w st) = CURLE_OK →
  files (fetchSofaJson w st).2 !! p =
  if bool_decide (http_code (transfer w st) = 200)
     && bool_decide (kJsonCache = p) && ofstream_open w kJsonCache
  then Some (readBuffer (transfer w st))
  else files (token_stored w st) !! p.
Proof.
  intros Hreached Hres. rewrite (fetch_transfer _ _ Hreached). simpl.
  rewrite Hres. simpl.
  case_bool_decide as H304; simpl.
  { rewrite bool_decide_eq_false_2; [done | lia]. }
  case_bool_decide as H200; simpl.
  - by rewrite writeFile_lookup.
  - by destruct (Strings.empty (readFile _ _)).
Qed.

Lemma fetch_files_unreached (w : World) (st : Store) :
  ¬ transport_reached w st → files (fetchSofaJson w st).2 = files st.
Proof.
  intros Hnot. unfold transport_reached in Hnot.
  destruct (ensureCacheDir w st).1 eqn:Hdir.
  - destruct (curl_easy_init w) eqn:Hinit; [by destruct Hnot|].
    rewrite fetch_no_handle by done. apply ensureCacheDir_files.
  - by rewrite fetch_no_directory.
Qed.

Lemma transport_reached_dec (w : World) (st : Store) :
  transport_reached w st ∨ ¬ transport_reached w st.
Proof.
  unfold transport_reached.
  destruct (ensureCacheDir w st).1, (curl_easy_init w);
    first [by left | right; by intros [??]].
Qed.

Lemma readFile_files (st : Store) (p : string) :
  readFile st p = default "" (files st !! p).
Proof. unfold readFile. by destruct (files st !! p). Qed.

Lemma token_stored_body_file (w : World) (st : Store) :
  files (token_stored w st) !! kJsonCache = files st !! kJsonCache.
Proof.
  rewrite token_stored_lookup. destruct (new_etag _); [|done].
  rewrite bool_decide_eq_false_2; [done|].
  intros H. by apply kJsonCache_ne_kEtagCache.
Qed.

(** C5. On a 304 the fetcher returns the body stored in the cache file,
    and leaves that file as it is; when there is no cache file, or an
    empty one, it returns the empty string and the call ends as a total
    failure, with the "Could not obtain data" row. *)
Theorem not_modified_returns_cached_body (w : World) (st : Store) :
  transport_reached w st →
  res (transfer w st) = CURLE_OK →
  http_code (transfer w st) = 304 →
  (∀ body, files st !! kJsonCache = Some body →
           (fetchSofaJson w st).1 = body) ∧
  (files st !! kJsonCache = None → (fetchSofaJson w st).1 = "") ∧
  files (fetchSofaJson w st).2 !! kJsonCache = files st !! kJsonCache ∧
  (files st !! kJsonCache = None ∨ files st !! kJsonCache = Some "" →
   ∀ json_parse version model,
     host_facts w version model →
     (generate json_parse w st).1 =
     Returned [MkRow version (os_major version) model
                 "Unknown" "Unknown" "-1" "Could not obtain data"]).
Proof.
  intros Hreached Hres H304.
  assert (fetchSofaJson w st = (readFile st kJsonCache, token_stored w st))
    as Hfetch.
  { rewrite (fetch_transfer _ _ Hreached). simpl.
    by rewrite Hres, H304, token_stored_body. }
  rewrite Hfetch. simpl. rewrite readFile_files. split_and!.
  - intros body Hbody. by rewrite Hbody.
  - intros Hnone. by rewrite Hnone.
  - apply token_stored_body_file.
  - intros Hempty json_parse version model Hfacts.
    assert (readFile st kJsonCache = "") as Hread.
    { rewrite readFile_files. by destruct Hempty as [->| ->]. }
    rewrite Hread in Hfetch.
    by rewrite (generate_unknown json_parse w st _ version model Hfacts Hfetch).
Qed.

(** C10. A 200 with an empty body: the fetcher writes the empty body over
    the cache file and returns it, and [generate] emits the "Could not
    obtain data" row although the transport call succeeded. *)
Theorem empty_fresh_body_is_total_failure (json_parse : string → result json)
    (w : World) (st : Store) (version model : string) :
  host_facts w version model →
  transport_reached w st →
  res (transfer w st) = CURLE_OK →
  http_code (transfer w st) = 200 →
  readBuffer (transfer w st) = "" →
  ∃ st',
    fetchSofaJson w st = ("", st') ∧
    st' = (writeFile w (token_stored w st) kJsonCache "").2 ∧
    (ofstream_open w kJsonCache = true → files st' !! kJsonCache = Some "") ∧
    generate json_parse w st =
    (Returned [MkRow version (os_major version) model
                 "Unknown" "Unknown" "-1" "Could not obtain data"], st').
Proof.
  intros Hfacts Hreached Hres H200 Hbody.
  assert (fetchSofaJson w st =
          ("", (writeFile w (token_stored w st) kJsonCache "").2)) as Hfetch.
  { rewrite (fetch_transfer _ _ Hreached). simpl.
    by rewrite Hres, H200, Hbody. }
  eexists. split; [exact Hfetch|]. split; [done|]. split.
  - intros Hopen. rewrite writeFile_lookup, Hopen.
    by rewrite bool_decide_eq_true_2.
  - by apply generate_unknown.
Qed.

(** C4, amended.  The body file changes only on a 200, where it takes the
    body of the response.  The token file changes only after a transport
    call that succeeded with a token in the response, and it is written
    on every such response, whatever its status; no other file changes,
    and a failed transport call leaves both files as they were. *)
Theorem cache_files_frame (w : World) (st : Store) :
  let st' := (fetchSofaJson w st).2 in
  let t := transfer w st in
  (files st' !! kJsonCache ≠ files st !! kJsonCache →
   transport_reached w st ∧ res t = CURLE_OK ∧ http_code t = 200 ∧
   files st' !! kJsonCache = Some (readBuffer t)) ∧
  (files st' !! kEtagCache ≠ files st !! kEtagCache →
   transport_reached w st ∧ res t = CURLE_OK ∧
   ∃ tok, new_etag t = Some tok ∧ files st' !! kEtagCache = Some tok) ∧
  (transport_reached w st → res t = CURLE_OK →
   ∀ tok, new_etag t = Some tok → ofstream_open w kEtagCache = true →
          files st' !! kEtagCache = Some tok) ∧
  (∀ p, p ≠ kJsonCache → p ≠ kEtagCache → files st' !! p = files st !! p) ∧
  (res t ≠ CURLE_OK → files st' = files st).
Proof.
  intros st' t. subst st' t.
  pose proof kJsonCache_ne_kEtagCache as Hpaths.
  destruct (transport_reached_dec w st) as [Hreached|Hnot]; cycle 1.
  { rewrite (fetch_files_unreached _ _ Hnot). naive_solver. }
  destruct (decide (res (transfer w st) = CURLE_OK)) as [Hres|Hres]; cycle 1.
  { rewrite (fetch_network_error _ _ Hreached Hres). simpl.
    rewrite ensureCacheDir_files. naive_solver. }
  split_and!; [| | |intros p Hjson Hetag|done];
    rewrite fetch_files, token_stored_lookup by done;
    repeat case_bool_decide; simplify_eq/=;
    destruct (ofstream_open w kJsonCache), (ofstream_open w kEtagCache),
      (new_etag (transfer w st)) as [tok|]; simpl;
    intros; simplify_eq/=; eauto 10.
Qed.

(** ** The lookup and the verdict *)

Lemma latest_os_of_spec (j : json) (latest : string) :
  latest_os_of j = inr latest ↔ names_latest j latest.
Proof.
  unfold latest_os_of, names_latest. split.
  - destruct j as [| | | | |top]; try done. simpl.
    destruct (top !! "OSVersions") as [[| | | |[|[| | | | |first] rest]|]|] eqn:Hv;
      try done. simpl.
    destruct (first !! "OSVersion") as [[| | |s| |]|] eqn:Hf; try done. simpl.
    intros [= ->]. by exists top, first, rest.
  - intros (top & first & rest & -> & Hv & Hf). simpl.
    rewrite Hv. simpl. by rewrite Hf.
Qed.

Lemma latest_os_of_throws (j : json) :
  (∀ latest, ¬ names_latest j latest) → ∃ e, latest_os_of j = inl e.
Proof.
  intros Hno. destruct (latest_os_of j) as [e|latest] eqn:H; [by exists e|].
  apply latest_os_of_spec in H. by destruct (Hno latest).
Qed.

Lemma lookup_found (j : json) (models : gmap string json)
    (model first : string) (rest : list json) :
  feed_models j models →
  supported_sequence models model (JString first :: rest) →
  model_in_feed j model = inr true ∧
  first_supported_os j model = inr first ∧
  lookup_model j model = inr (first, "Pass").
Proof.
  intros (top & -> & Hmodels) (entry & Hentry & Hseq).
  unfold lookup_model, model_in_feed, first_supported_os. simpl.
  rewrite Hmodels. simpl. rewrite Hentry. simpl.
  by rewrite Hseq.
Qed.

Lemma lookup_missing (j : json) (models : gmap string json) (model : string) :
  feed_models j models →
  models !! model = None ∨ supported_sequence models model [] →
  model_in_feed j model = inr false ∧
  lookup_model j model = inr ("Unsupported", "Unsupported Hardware").
Proof.
  intros (top & -> & Hmodels) [Hnone|(entry & Hentry & Hseq)];
    unfold lookup_model, model_in_feed; simpl; rewrite Hmodels; simpl.
  - by rewrite Hnone.
  - rewrite Hentry. simpl. by rewrite Hseq.
Qed.

(** The lookup leaves the status at "Pass", or at "Unsupported Hardware"
    with the label "Unsupported". *)
Lemma lookup_model_status (j : json) (model compatible s : string) :
  lookup_model j model = inr (compatible, s) →
  s = "Pass" ∨ (s = "Unsupported Hardware" ∧ compatible = "Unsupported").
Proof.
  unfold lookup_model.
  destruct (model_in_feed j model) as [e|[|]]; simpl; [done| |].
  - destruct (first_supported_os j model); simpl; [done|].
    intros [= <- <-]. by left.
  - intros [= <- <-]. by right.
Qed.

Lemma verdict_spec (latest compatible s : string) :
  verdict latest compatible s =
  (bool_decide (latest = compatible),
   if negb (bool_decide (latest = compatible))
      && negb (bool_decide (s = "Unsupported Hardware"))
   then "Fail" else s).
Proof. unfold verdict. by destruct (negb _ && negb _). Qed.

Section Verdict.

Context (json_parse : string → result json).

(** C1, amended.  With the model mapping [models] of a parsed feed: when
    the looked-up model has a non-empty supported-OS sequence, the lookup
    gives its first element and the status "Pass"; when the model is
    absent or its sequence empty, it gives "Unsupported" and "Unsupported
    Hardware", and [is_compatible] is false unless the latest release of
    the feed is itself labelled "Unsupported".  In every case
    [is_compatible] is the equality of the two labels, and the status
    becomes "Fail" exactly when they differ and the status was not
    "Unsupported Hardware". *)
Theorem lookup_and_verdict (w : World) (st st' : Store)
    (version model body latest : string) (j : json)
    (models : gmap string json) :
  host_facts w version model →
  fetchSofaJson w st = (body, st') →
  Strings.empty body = false →
  json_parse body = inr j →
  latest_os_of j = inr latest →
  feed_models j models →
  let looked_up := substituted model in
  (∀ first rest,
     supported_sequence models looked_up (JString first :: rest) →
     lookup_model j looked_up = inr (first, "Pass")) ∧
  (models !! looked_up = None ∨ supported_sequence models looked_up [] →
   lookup_model j looked_up = inr ("Unsupported", "Unsupported Hardware") ∧
   ∃ r, generate json_parse w st = (Returned [r], st') ∧
        latest_compatible_macos r = "Unsupported" ∧
        status r = "Unsupported Hardware" ∧
        (latest ≠ "Unsupported" → is_compatible r = "0") ∧
        (latest = "Unsupported" → is_compatible r = "1")) ∧
  (∀ compatible s,
     lookup_model j looked_up = inr (compatible, s) →
     ∃ r, generate json_parse w st = (Returned [r], st') ∧
          latest_macos r = latest ∧
          latest_compatible_macos r = compatible ∧
          is_compatible r =
            (if bool_decide (latest_macos r = latest_compatible_macos r)
             then "1" else "0") ∧
          (status r = "Fail" ↔
           latest_macos r ≠ latest_compatible_macos r ∧
           s ≠ "Unsupported Hardware") ∧
          (status r ≠ "Fail" → status r = s)).
Proof.
  intros Hfacts Hfetch Hbody Hparse Hlatest Hmodels looked_up.
  pose proof (generate_evaluated json_parse w st st' version model body
                latest j Hfacts Hfetch Hbody Hparse Hlatest) as Hgen.
  fold looked_up in Hgen. split_and!.
  - intros first rest Hseq. by apply (lookup_found j models _ first rest).
  - intros Hmissing.
    destruct (lookup_missing j models looked_up Hmodels Hmissing) as [_ Hlookup].
    split; [done|]. rewrite Hlookup in Hgen.
    eexists. split; [exact Hgen|]. unfold verdict_row. rewrite verdict_spec.
    simpl. split_and!; [done | by rewrite andb_false_r | |].
    + intros Hne. by rewrite bool_decide_eq_false_2.
    + intros Heq. by rewrite bool_decide_eq_true_2.
  - intros compatible s Hlookup. rewrite Hlookup in Hgen.
    eexists. split; [exact Hgen|]. unfold verdict_row. rewrite verdict_spec.
    simpl. split_and!; try done.
    + destruct (lookup_model_status _ _ _ _ Hlookup) as [->|[-> ->]];
        repeat case_bool_decide; simpl; intuition congruence.
    + repeat case_bool_decide; simpl; intuition congruence.
Qed.

(** C6, amended.  For a non-empty body: when [json::parse] throws, when
    the document does not name its latest release ([OSVersions[0]] has no
    string [OSVersion]), or when the lookup of the model throws, the row
    is the error row, its status "Error parsing data: " followed by
    [what()]; the model it reports is the one at hand when the exception
    was thrown.  A document that names its latest release and lacks the
    [Models] mapping, the model in it, or the [SupportedOS] of the model
    is no error: it gives the "Unsupported Hardware" row.  An empty body
    gives the "Could not obtain data" row. *)
Theorem evaluation_failure_row (w : World) (st st' : Store)
    (version model body : string) :
  host_facts w version model →
  fetchSofaJson w st = (body, st') →
  (body = "" →
   generate json_parse w st =
   (Returned [MkRow version (os_major version) model
                "Unknown" "Unknown" "-1" "Could not obtain data"], st')) ∧
  (body ≠ "" →
   (∀ e, json_parse body = inl e →
         generate json_parse w st =
         (Returned [MkRow version (os_major version) model "Error" "Error" "-1"
                      ("Error parsing data: " +:+ what e)], st')) ∧
   (∀ j, json_parse body = inr j →
         (∀ latest, ¬ names_latest j latest) →
         ∃ e, latest_os_of j = inl e ∧
              generate json_parse w st =
              (Returned [MkRow version (os_major version) model
                           "Error" "Error" "-1"
                           ("Error parsing data: " +:+ what e)], st')) ∧
   (∀ j latest e,
      json_parse body = inr j → latest_os_of j = inr latest →
      lookup_model j (substituted model) = inl e →
      generate json_parse w st =
      (Returned [MkRow version (os_major version) (substituted model)
                   "Error" "Error" "-1"
                   ("Error parsing data: " +:+ what e)], st')) ∧
   (∀ j latest top,
      json_parse body = inr j → latest_os_of j = inr latest →
      j = JObject top →
      (top !! "Models" = None ∨
       (∃ models, top !! "Models" = Some (JObject models) ∧
                  models !! substituted model = None) ∨
       (∃ models entry,
          top !! "Models" = Some (JObject models) ∧
          models !! substituted model = Some (JObject entry) ∧
          entry !! "SupportedOS" = None)) →
      generate json_parse w st =
      (Returned [MkRow version (os_major version) (substituted model)
                   latest "Unsupported"
                   (if bool_decide (latest = "Unsupported") then "1" else "0")
                   "Unsupported Hardware"], st'))).
Proof.
  intros Hfacts Hfetch. split.
  { intros ->. by apply generate_unknown. }
  intros Hbody.
  assert (Strings.empty body = false) as Hnonempty by by destruct body.
  split_and!.
  - intros e Hparse.
    rewrite (generate_with_facts _ _ _ _ _ Hfacts), Hfetch, Hnonempty.
    by rewrite try_block_cases, Hparse.
  - intros j Hparse Hno.
    destruct (latest_os_of_throws j Hno) as [e He]. exists e. split; [done|].
    rewrite (generate_with_facts _ _ _ _ _ Hfacts), Hfetch, Hnonempty.
    by rewrite try_block_cases, Hparse, He.
  - intros j latest e Hparse Hlatest Hlookup.
    rewrite (generate_evaluated json_parse w st st' version model body latest j)
      by done.
    by rewrite Hlookup.
  - intros j latest top Hparse Hlatest -> Hshape.
    rewrite (generate_evaluated json_parse w st st' version model body latest
               (JObject top)) by done.
    assert (lookup_model (JObject top) (substituted model)
            = inr ("Unsupported", "Unsupported Hardware")) as ->.
    { unfold lookup_model, model_in_feed. simpl.
      destruct Hshape as [Hnone|[(models & Hmodels & Hnone)
                                |(models & entry & Hmodels & Hentry & Hnone)]].
      - by rewrite Hnone.
      - rewrite Hmodels. simpl. by rewrite Hnone.
      - rewrite Hmodels. simpl. rewrite Hentry. simpl. by rewrite Hnone. }
    unfold verdict_row. rewrite verdict_spec. simpl.
    by rewrite andb_false_r.
Qed.

End Verdict.

(** ** More of the strings *)

Section MoreStringFacts.

Import Strings.

Lemma prefix_inv (a s : string) :
  String.prefix a s = true → ∃ post, s = a +:+ post.
Proof.
  revert s. induction a as [|c a IH]; intros s H.
  - by exists s.
  - destruct s as [|d s]; [done|]. simpl in H.
    destruct (ascii_dec c d) as [->|]; [|done].
    destruct (IH s H) as [post ->]. by exists post.
Qed.

(** Where [find] reports a position, the needle stands there. *)
Lemma find_some_inv (needle s : string) (n : nat) :
  find needle s = Some n →
  ∃ pre post, s = pre +:+ needle +:+ post ∧ String.length pre = n.
Proof.
  revert n. induction s as [|a s IH]; intros n; rewrite find_unfold.
  - destruct (String.prefix needle "") eqn:Hp; [|done].
    intros [= <-]. destruct (prefix_inv _ _ Hp) as [post Hpost].
    by exists "", post.
  - destruct (String.prefix needle (String a s)) eqn:Hp.
    + intros [= <-]. destruct (prefix_inv _ _ Hp) as [post Hpost].
      by exists "", post.
    + destruct (find needle s) as [m|] eqn:Hm; [|done].
      intros [= <-]. destruct (IH m eq_refl) as (pre & post & -> & <-).
      by exists (String a pre), post.
Qed.

Lemma find_none_inv (needle s pre post : string) :
  find needle s = None → s ≠ pre +:+ needle +:+ post.
Proof.
  intros Hnone ->. destruct (find_occurrence needle pre post) as [n Hn].
  congruence.
Qed.

Lemma find_char_some_inv (c : ascii) (s : string) (n : nat) :
  find (String c "") s = Some n →
  ∃ pre post, s = pre +:+ String c post ∧ String.length pre = n ∧
              free_of c pre.
Proof.
  revert n. induction s as [|a s IH]; intros n; [done|].
  cbn [find]. rewrite prefix_char. case_bool_decide as Hc.
  - intros [= <-]. subst a. by exists "", s.
  - destruct (find (String c "") s) as [m|] eqn:Hm; [|done].
    intros [= <-]. destruct (IH m eq_refl) as (pre & post & -> & <- & Hfree).
    exists (String a pre), post. by split_and!.
Qed.

Lemma find_char_none_inv (c : ascii) (s : string) :
  find (String c "") s = None → free_of c s.
Proof.
  induction s as [|a s IH]; [done|].
  cbn [find]. rewrite prefix_char. case_bool_decide as Hc; [done|].
  destruct (find (String c "") s); [done|]. intros _. split; [done|].
  by apply IH.
Qed.

(** Line 177 on any version: the major has no dot, and the version is the
    major, alone or followed by a dot. *)
Lemma os_major_cases (version : string) :
  free_of "."%char (os_major version) ∧
  (version = os_major version ∨
   ∃ post, version = os_major version +:+ "." +:+ post).
Proof.
  unfold os_major. destruct (find "." version) as [n|] eqn:Hfind.
  - destruct (find_char_some_inv _ _ _ Hfind) as (pre & post & -> & <- & Hfree).
    rewrite substr_prefix. split; [done|]. right. by exists post.
  - rewrite substr_npos. split; [|by left]. by apply find_char_none_inv.
Qed.

Lemma substituted_cases (model : string) :
  (substituted model = "Macmini9,1" ∧
   ∃ pre post, model = pre +:+ "VirtualMac" +:+ post) ∨
  (substituted model = model ∧
   ∀ pre post, model ≠ pre +:+ "VirtualMac" +:+ post).
Proof.
  unfold substituted. destruct (find "VirtualMac" model) as [n|] eqn:Hfind.
  - left. split; [done|].
    destruct (find_some_inv _ _ _ Hfind) as (pre & post & -> & _). eauto.
  - right. split; [done|]. intros pre post. by apply find_none_inv.
Qed.

End MoreStringFacts.

(** ** More of the cache store *)




(** ** More of the fetcher *)

Lemma fetch_not_modified (w : World) (st : Store) :
  transport_reached w st →
  res (transfer w st) = CURLE_OK →
  http_code (transfer w st) = 304 →
  fetchSofaJson w st = (readFile st kJsonCache, token_stored w st).
Proof.
  intros Hreached Hres H304. rewrite (fetch_transfer _ _ Hreached). simpl.
  by rewrite Hres, H304, token_stored_body.
Qed.

Lemma fetch_fresh (w : World) (st : Store) :
  transport_reached w st →
  res (transfer w st) = CURLE_OK →
  http_code (transfer w st) = 200 →
  fetchSofaJson w st =
  (readBuffer (transfer w st),
   (writeFile w (token_stored w st) kJsonCache (readBuffer (transfer w st))).2).
Proof.
  intros Hreached Hres H200. rewrite (fetch_transfer _ _ Hreached). simpl.
  by rewrite Hres, H200.
Qed.

(** A successful transfer with a status other than 200 returns the cached
    body, 304 or not. *)
Lemma fetch_stale (w : World) (st : Store) :
  transport_reached w st →
  res (transfer w st) = CURLE_OK →
  http_code (transfer w st) ≠ 200 →
  fetchSofaJson w st = (readFile st kJsonCache, token_stored w st).
Proof.
  intros Hreached Hres H200.
  destruct (decide (http_code (transfer w st) = 304)) as [H304|H304].
  - by apply fetch_not_modified.
  - by apply fetch_failed_status.
Qed.

Lemma fetch_unreached (w : World) (st : Store) :
  ¬ transport_reached w st → (fetchSofaJson w st).1 = "".
Proof.
  intros Hnot. unfold transport_reached in Hnot.
  destruct (ensureCacheDir w st).1 eqn:Hdir.
  - destruct (curl_easy_init w) eqn:Hinit; [by destruct Hnot|].
    by rewrite fetch_no_handle.
  - by rewrite fetch_no_directory.
Qed.

(** After a 200 whose body could be written, the cache file holds it. *)
Lemma fresh_body_cached (w : World) (st : Store) :
  transport_reached w st →
  res (transfer w st) = CURLE_OK →
  http_code (transfer w st) = 200 →
  ofstream_open w kJsonCache = true →
  readFile (fetchSofaJson w st).2 kJsonCache = readBuffer (transfer w st).
Proof.
  intros Hreached Hres H200 Hopen. rewrite fetch_fresh by done. simpl.
  unfold readFile. rewrite writeFile_lookup, Hopen.
  by rewrite bool_decide_eq_true_2.
Qed.

(** The request of a fetch, read off the token file. *)
Lemma sent_request_files (st : Store) :
  sent_request st =
  MkRequest kSofaUrl kUserAgent
    (match files st !! kEtagCache with
     | Some (String a etag) => ["If-None-Match: " +:+ String a etag]
     | _ => []
     end).
Proof.
  unfold sent_request, readFile.
  by destruct (files st !! kEtagCache) as [[|a etag]|].
Qed.

(** Two hosts that make the same calls and get the same transfer fetch
    the same. *)
Lemma fetch_agrees (w w' : World) (st : Store) :
  same_host_calls w w' →
  transfer w st = transfer w' st →
  fetchSofaJson w st = fetchSofaJson w' st.
Proof.
  intros (Hmkdir & Hopen & Hinit) Htransfer.
  assert (ensureCacheDir w st = ensureCacheDir w' st) as Hdir.
  { unfold ensureCacheDir. by rewrite Hmkdir. }
  assert (token_stored w st = token_stored w' st) as Htoken.
  { unfold token_stored, writeFile. by rewrite Htransfer, Hdir, Hopen. }
  destruct (transport_reached_dec w st) as [Hreached|Hnot].
  - assert (transport_reached w' st) as Hreached'.
    { destruct Hreached. split; congruence. }
    rewrite !fetch_transfer by done. simpl.
    rewrite Htransfer, Hdir, Htoken. unfold writeFile. by rewrite Hopen.
  - unfold transport_reached in Hnot.
    destruct (ensureCacheDir w st).1 eqn:Hd.
    + destruct (curl_easy_init w) eqn:Hi; [by destruct Hnot|].
      rewrite !fetch_no_handle; congruence.
    + rewrite !fetch_no_directory; congruence.
Qed.

(** Without the directory or the handle the transport plays no part. *)
Lemma fetch_agrees_unreached (w w' : World) (st : Store) :
  same_host_calls w w' →
  ¬ transport_reached w st →
  fetchSofaJson w st = fetchSofaJson w' st.
Proof.
  intros (Hmkdir & Hopen & Hinit) Hnot.
  assert (ensureCacheDir w st = ensureCacheDir w' st) as Hdir.
  { unfold ensureCacheDir. by rewrite Hmkdir. }
  unfold transport_reached in Hnot.
  destruct (ensureCacheDir w st).1 eqn:Hd.
  - destruct (curl_easy_init w) eqn:Hi; [by destruct Hnot|].
    rewrite !fetch_no_handle; congruence.
  - rewrite !fetch_no_directory; congruence.
Qed.

(** What a fetch returns, by the transfer it got. *)
Lemma fetch_result (w : World) (st : Store) :
  transport_reached w st →
  (res (transfer w st) ≠ CURLE_OK → (fetchSofaJson w st).1 = "") ∧
  (res (transfer w st) = CURLE_OK → http_code (transfer w st) = 200 →
   (fetchSofaJson w st).1 = readBuffer (transfer w st)) ∧
  (res (transfer w st) = CURLE_OK → http_code (transfer w st) ≠ 200 →
   (fetchSofaJson w st).1 = default "" (files st !! kJsonCache)).
Proof.
  intros Hreached. split_and!.
  - intros Hres. by rewrite fetch_network_error.
  - intros Hres H200. by rewrite fetch_fresh.
  - intros Hres H200. rewrite fetch_stale by done. apply readFile_files.
Qed.

(** Lines 85-151.  With the cache directory and the curl handle at hand,
    the fetcher works from the answer of the transport to one request:
    the feed URL with the fixed user agent, and an If-None-Match header
    holding the cached token exactly when the token file is not empty.
    A failed answer gives the empty string, a 200 the body of the answer,
    any other status the cached body; what the transport would answer to
    another request has no effect.  Without the directory or the handle
    the result is the empty string and no answer of the transport has
    any effect. *)
Theorem fetch_sends_one_request (w : World) (st : Store) :
  let request :=
    MkRequest "https://sofafeed.macadmins.io/v1/macos_data_feed.json"
      "SOFA-osquery-macOSCompatibilityCheck/1.0"
      (match files st !! kEtagCache with
       | Some (String a etag) => ["If-None-Match: " +:+ String a etag]
       | _ => []
       end) in
  let t := curl_easy_perform w request in
  (transport_reached w st →
   (res t ≠ CURLE_OK → (fetchSofaJson w st).1 = "") ∧
   (res t = CURLE_OK → http_code t = 200 →
    (fetchSofaJson w st).1 = readBuffer t) ∧
   (res t = CURLE_OK → http_code t ≠ 200 →
    (fetchSofaJson w st).1 = default "" (files st !! kJsonCache)) ∧
   (res t = CURLE_OK → ofstream_open w kEtagCache = true →
    ∀ tok, new_etag t = Some tok →
           files (fetchSofaJson w st).2 !! kEtagCache = Some tok)) ∧
  (∀ w', same_host_calls w w' →
         curl_easy_perform w' request = t →
         fetchSofaJson w' st = fetchSofaJson w st) ∧
  (¬ transport_reached w st →
   (fetchSofaJson w st).1 = "" ∧
   ∀ w', same_host_calls w w' → fetchSofaJson w' st = fetchSofaJson w st).
Proof.
  intros request t.
  assert (request = sent_request st) as Hreq.
  { unfold request. by rewrite sent_request_files. }
  assert (t = transfer w st) as Ht.
  { unfold t, transfer. by rewrite Hreq. }
  split_and!.
  - intros Hreached. rewrite Ht.
    destruct (fetch_result w st Hreached) as (Hfail & Hfresh & Hstale).
    split_and!; try done.
    intros Hres Hopen tok Htok.
    rewrite fetch_files, token_stored_lookup, Htok, Hopen by done.
    rewrite (bool_decide_eq_false_2 (kJsonCache = kEtagCache))
      by apply kJsonCache_ne_kEtagCache.
    by rewrite andb_false_r.
  - intros w' Hsame Hanswer. symmetry. apply fetch_agrees; [done|].
    unfold transfer. rewrite <- Hreq. by rewrite Hanswer.
  - intros Hnot. split; [by apply fetch_unreached|].
    intros w' Hsame. symmetry. by apply fetch_agrees_unreached.
Qed.

(** Lines 85-93.  When the cache directory cannot be made or curl gives no
    handle, the fetcher returns the empty string and writes no file, and
    [generate] emits the "Could not obtain data" row. *)
Theorem setup_failure_is_total_failure (json_parse : string → result json)
    (w : World) (st : Store) (version model : string) :
  (ensureCacheDir w st).1 = false ∨ curl_easy_init w = false →
  host_facts w version model →
  (fetchSofaJson w st).1 = "" ∧
  files (fetchSofaJson w st).2 = files st ∧
  (generate json_parse w st).1 =
  Returned [MkRow version (os_major version) model
              "Unknown" "Unknown" "-1" "Could not obtain data"].
Proof.
  intros Hfail Hfacts.
  assert (¬ transport_reached w st) as Hnot.
  { intros [Hd Hi]. destruct Hfail; congruence. }
  pose proof (fetch_unreached _ _ Hnot) as Hbody.
  split_and!; [done | by apply fetch_files_unreached |].
  destruct (fetchSofaJson w st) as [body st'] eqn:Hfetch. simpl in Hbody.
  subst body.
  by rewrite (generate_unknown json_parse w st st' version model Hfacts Hfetch).
Qed.

(** Lines 112-151.  A body the fetcher returns is the body of a 200
    response or the body of the cache file as it stood before the call;
    anything else it returns is the empty string. *)
Theorem fetched_body_provenance (w : World) (st : Store) :
  (fetchSofaJson w st).1 = "" ∨
  (transport_reached w st ∧ res (transfer w st) = CURLE_OK ∧
   ((http_code (transfer w st) = 200 ∧
     (fetchSofaJson w st).1 = readBuffer (transfer w st)) ∨
    (http_code (transfer w st) ≠ 200 ∧
     (fetchSofaJson w st).1 = readFile st kJsonCache))).
Proof.
  destruct (transport_reached_dec w st) as [Hreached|Hnot];
    [|left; by apply fetch_unreached].
  destruct (decide (res (transfer w st) = CURLE_OK)) as [Hres|Hres];
    [|left; by rewrite fetch_network_error].
  right. split_and!; try done.
  destruct (decide (http_code (transfer w st) = 200)) as [H200|H200].
  - left. by rewrite fetch_fresh.
  - right. by rewrite fetch_stale.
Qed.

(** Lines 123-151.  After a transfer that succeeded, with a body file that
    can be written, the cache file holds exactly what the fetcher
    returned: on a 200 both are the body of the response, on any other
    status both are the body the cache file held before, and the file is
    unchanged. *)
Theorem returned_body_is_cached (w : World) (st : Store) :
  transport_reached w st →
  res (transfer w st) = CURLE_OK →
  ofstream_open w kJsonCache = true →
  default "" (files (fetchSofaJson w st).2 !! kJsonCache)
  = (fetchSofaJson w st).1 ∧
  (http_code (transfer w st) = 200 →
   (fetchSofaJson w st).1 = readBuffer (transfer w st) ∧
   files (fetchSofaJson w st).2 !! kJsonCache
   = Some (readBuffer (transfer w st))) ∧
  (http_code (transfer w st) ≠ 200 →
   (fetchSofaJson w st).1 = default "" (files st !! kJsonCache) ∧
   files (fetchSofaJson w st).2 !! kJsonCache = files st !! kJsonCache).
Proof.
  intros Hreached Hres Hopen.
  assert (http_code (transfer w st) = 200 →
          (fetchSofaJson w st).1 = readBuffer (transfer w st) ∧
          files (fetchSofaJson w st).2 !! kJsonCache
          = Some (readBuffer (transfer w st))) as Hfresh.
  { intros H200. rewrite fetch_fresh by done. simpl. split; [done|].
    rewrite writeFile_lookup, Hopen. by rewrite bool_decide_eq_true_2. }
  assert (http_code (transfer w st) ≠ 200 →
          (fetchSofaJson w st).1 = default "" (files st !! kJsonCache) ∧
          files (fetchSofaJson w st).2 !! kJsonCache = files st !! kJsonCache)
    as Hstale.
  { intros H200. rewrite fetch_stale by done. simpl.
    split; [apply readFile_files | apply token_stored_body_file]. }
  split_and!; try done.
  destruct (decide (http_code (transfer w st) = 200)) as [H200|H200].
  - destruct (Hfresh H200) as [-> ->]. done.
  - destruct (Hstale H200) as [-> ->]. done.
Qed.

(** Lines 138-142.  On a 200 the body of the response is returned even
    when no file can be opened for writing; the files of the cache then
    stay as they were. *)
Theorem fresh_body_survives_write_failure (w : World) (st : Store) :
  transport_reached w st →
  res (transfer w st) = CURLE_OK →
  http_code (transfer w st) = 200 →
  (∀ p, ofstream_open w p = false) →
  (fetchSofaJson w st).1 = readBuffer (transfer w st) ∧
  files (fetchSofaJson w st).2 = files st.
Proof.
  intros Hreached Hres H200 Hclosed. rewrite fetch_fresh by done. simpl.
  split; [done|]. apply map_eq. intros p.
  rewrite writeFile_lookup, token_stored_lookup, !Hclosed, !andb_false_r.
  by destruct (new_etag _).
Qed.

(** Lines 99-104 after lines 123-128.  The token a response carried, once
    written, is the If-None-Match of the next call: with the directory
    and the handle at hand, the next fetch works from the answer of its
    transport to the request that carries the token (a failed answer
    gives the empty string, a 200 the body of the answer, any other
    status the cached body), and from no other answer. *)
Theorem revalidation_sends_stored_token (w w2 : World) (st : Store)
    (tok : string) :
  transport_reached w st →
  res (transfer w st) = CURLE_OK →
  new_etag (transfer w st) = Some tok →
  tok ≠ "" →
  ofstream_open w kEtagCache = true →
  transport_reached w2 (fetchSofaJson w st).2 →
  let st' := (fetchSofaJson w st).2 in
  let request :=
    MkRequest "https://sofafeed.macadmins.io/v1/macos_data_feed.json"
      "SOFA-osquery-macOSCompatibilityCheck/1.0"
      ["If-None-Match: " +:+ tok] in
  let t := curl_easy_perform w2 request in
  files st' !! kEtagCache = Some tok ∧
  (res t ≠ CURLE_OK → (fetchSofaJson w2 st').1 = "") ∧
  (res t = CURLE_OK → http_code t = 200 →
   (fetchSofaJson w2 st').1 = readBuffer t) ∧
  (res t = CURLE_OK → http_code t ≠ 200 →
   (fetchSofaJson w2 st').1 = default "" (files st' !! kJsonCache)) ∧
  (∀ w2', same_host_calls w2 w2' →
          curl_easy_perform w2' request = t →
          fetchSofaJson w2' st' = fetchSofaJson w2 st').
Proof.
  intros Hreached Hres Htok Hnonempty Hopen Hreached2 st' request t.
  assert (files st' !! kEtagCache = Some tok) as Hetag.
  { unfold st'. rewrite fetch_files, token_stored_lookup by done.
    rewrite (bool_decide_eq_false_2 (kJsonCache = kEtagCache))
      by apply kJsonCache_ne_kEtagCache.
    by rewrite andb_false_r, Htok, Hopen. }
  assert (request = sent_request st') as Hreq.
  { rewrite sent_request_files, Hetag. by destruct tok. }
  assert (t = transfer w2 st') as Ht.
  { unfold t, transfer. by rewrite Hreq. }
  destruct (fetch_result w2 st' Hreached2) as (Hfail & Hfresh & Hstale).
  rewrite Ht. split_and!; try done.
  intros w2' Hsame Hanswer. symmetry. apply fetch_agrees; [done|].
  rewrite <- Hanswer. unfold transfer. by rewrite <- Hreq.
Qed.


(** ** More of [generate] *)

Section MoreRows.

Context (json_parse : string → result json).

(** Either the host facts are there, or [generate] ends before the fetch. *)
Lemma generate_cases (w : World) (st : Store) :
  (∃ version model, host_facts w version model) ∨
  ((generate json_parse w st).2 = st ∧
   ((generate json_parse w st).1 = Returned [] ∨
    (generate json_parse w st).1 = Thrown_out_of_range)).
Proof.
  unfold generate, host_facts.
  destruct (os_version w) as [|os os_rest]; [right; eauto|].
  destruct (os !! "product_version") as [version|] eqn:Hv; [|right; eauto].
  destruct (system_info w) as [|sys sys_rest]; [right; eauto|].
  destruct (sys !! "hardware_model") as [model|] eqn:Hm; [|right; eauto].
  left. exists version, model, os, sys. eauto.
Qed.

Lemma generate_row_facts (w : World) (st : Store) (r : TableRow) :
  (generate json_parse w st).1 = Returned [r] →
  ∃ version model, host_facts w version model.
Proof.
  intros Hrow. destruct (generate_cases w st) as [?|[_ [H|H]]]; [done|..];
    rewrite H in Hrow; discriminate.
Qed.

(** The rows of [generate], form by form. *)
Lemma generate_row_forms (w : World) (st : Store) (version model : string)
    (r : TableRow) :
  host_facts w version model →
  (generate json_parse w st).1 = Returned [r] →
  r = unknown_row version model ∨
  (∃ e, r = error_row version model e) ∨
  (∃ e, r = error_row version (substituted model) e) ∨
  (∃ latest compatible s j,
     lookup_model j (substituted model) = inr (compatible, s) ∧
     r = verdict_row version (substituted model) latest compatible s).
Proof.
  intros Hfacts. rewrite (generate_with_facts _ _ _ _ _ Hfacts).
  destruct (fetchSofaJson w st) as [body st'].
  destruct (Strings.empty body); [intros [= <-]; by left|].
  rewrite try_block_cases.
  destruct (json_parse body) as [e|j]; [intros [= <-]; right; left; eauto|].
  destruct (latest_os_of j) as [e|latest]; [intros [= <-]; right; left; eauto|].
  destruct (lookup_model j _) as [e|[compatible s]] eqn:Hlookup;
    intros [= <-]; right; right; [left; eauto|right].
  by exists latest, compatible, s, j.
Qed.

(** Lines 169-185.  Without the host facts [generate] stops before the
    fetch: it returns no row, or the [std::out_of_range] of a missing
    column leaves it, and the cache is as it was. *)
Theorem generate_without_host_facts (w : World) (st : Store) :
  (∀ version model, ¬ host_facts w version model) →
  (generate json_parse w st).2 = st ∧
  ((generate json_parse w st).1 = Returned [] ∨
   (generate json_parse w st).1 = Thrown_out_of_range) ∧
  (os_version w = [] → (generate json_parse w st).1 = Returned []).
Proof.
  intros Hnone.
  destruct (generate_cases w st) as [(version & model & Hfacts)|[Hst Hout]].
  - by destruct (Hnone version model).
  - split_and!; try done. intros Hos. unfold generate. by rewrite Hos.
Qed.

(** Lines 190-252.  The fields of a row agree with each other: "Could not
    obtain data" and "Error parsing data" rows carry -1 and the labels
    "Unknown" or "Error"; "Pass" goes with 1 and equal releases; "Fail"
    with 0 and different releases; "Unsupported Hardware" with the label
    "Unsupported".  No row has another status. *)
Theorem row_fields_agree (w : World) (st : Store) (r : TableRow) :
  (generate json_parse w st).1 = Returned [r] →
  (status r = "Could not obtain data" ∧ is_compatible r = "-1" ∧
   latest_macos r = "Unknown" ∧ latest_compatible_macos r = "Unknown") ∨
  ((∃ e, status r = "Error parsing data: " +:+ what e) ∧
   is_compatible r = "-1" ∧
   latest_macos r = "Error" ∧ latest_compatible_macos r = "Error") ∨
  (status r = "Pass" ∧ is_compatible r = "1" ∧
   latest_macos r = latest_compatible_macos r) ∨
  (status r = "Fail" ∧ is_compatible r = "0" ∧
   latest_macos r ≠ latest_compatible_macos r) ∨
  (status r = "Unsupported Hardware" ∧
   latest_compatible_macos r = "Unsupported" ∧
   is_compatible r = if bool_decide (latest_macos r = "Unsupported")
                     then "1" else "0").
Proof.
  intros Hrow. destruct (generate_row_facts w st r Hrow) as (version & model & Hfacts).
  destruct (generate_row_forms w st version model r Hfacts Hrow)
    as [->|[[e ->]|[[e ->]|(latest & compatible & s & j & Hlookup & ->)]]].
  - by left.
  - right; left. simpl. eauto.
  - right; left. simpl. eauto.
  - right; right. unfold verdict_row. rewrite verdict_spec. simpl.
    destruct (lookup_model_status _ _ _ _ Hlookup) as [->|[-> ->]]; simpl.
    + case_bool_decide; simpl; [left|right; left]; done.
    + right; right. rewrite andb_false_r. done.
Qed.

(** Lines 174-177.  In every row [system_os_major] has no dot, and
    [system_version] is that major, alone or followed by a dot and the
    rest of the version. *)
Theorem system_os_major_shape (w : World) (st : Store) (r : TableRow) :
  (generate json_parse w st).1 = Returned [r] →
  Strings.free_of "."%char (system_os_major r) ∧
  (system_version r = system_os_major r ∨
   ∃ post, system_version r = system_os_major r +:+ "." +:+ post).
Proof.
  intros Hrow. destruct (generate_row_facts w st r Hrow) as (version & model & Hfacts).
  destruct (generate_single_row json_parse w st version model Hfacts)
    as (r' & Hr' & Hversion & Hmajor).
  rewrite Hrow in Hr'. injection Hr' as ->. rewrite Hversion, Hmajor.
  apply os_major_cases.
Qed.

(** Lines 185 and 210-213.  The model of a row is the model of the host,
    unless that model contains "VirtualMac": only then can the row say
    "Macmini9,1" in its place. *)
Theorem reported_model (w : World) (st : Store) (version model : string)
    (r : TableRow) :
  host_facts w version model →
  (generate json_parse w st).1 = Returned [r] →
  model_identifier r = model ∨
  (model_identifier r = "Macmini9,1" ∧
   ∃ pre post, model = pre +:+ "VirtualMac" +:+ post).
Proof.
  intros Hfacts Hrow.
  assert (model_identifier r = model ∨ model_identifier r = substituted model)
    as [H|H].
  { destruct (generate_row_forms w st version model r Hfacts Hrow)
      as [->|[[e ->]|[[e ->]|(latest & compatible & s & j & _ & ->)]]];
      simpl; eauto. }
  - by left.
  - rewrite H. destruct (substituted_cases model) as [[-> Hin]|[-> _]]; eauto.
Qed.

(** Lines 188-252 over two calls.  After a call that fetched a body with a
    200 and cached it, a call of the same host whose transfer succeeds
    with another status (a 304, a 503) returns the same rows. *)
Theorem generate_again_from_cache (w w2 : World) (st : Store)
    (version model : string) :
  host_facts w version model →
  host_facts w2 version model →
  transport_reached w st →
  res (transfer w st) = CURLE_OK →
  http_code (transfer w st) = 200 →
  ofstream_open w kJsonCache = true →
  transport_reached w2 (generate json_parse w st).2 →
  res (transfer w2 (generate json_parse w st).2) = CURLE_OK →
  http_code (transfer w2 (generate json_parse w st).2) ≠ 200 →
  (generate json_parse w2 (generate json_parse w st).2).1
  = (generate json_parse w st).1.
Proof.
  intros Hfacts Hfacts2 Hreached Hres H200 Hopen.
  assert ((generate json_parse w st).2 = (fetchSofaJson w st).2) as ->.
  { rewrite (generate_with_facts _ _ _ _ _ Hfacts).
    destruct (fetchSofaJson w st) as [body st']. simpl.
    destruct (Strings.empty body); [done|].
    by destruct (try_block _ _ _ _ _) as [? [?|?]]. }
  intros Hreached2 Hres2 Hcode2.
  assert ((fetchSofaJson w2 (fetchSofaJson w st).2).1 = (fetchSofaJson w st).1)
    as Hbody.
  { rewrite (fetch_stale w2) by done. simpl.
    rewrite fresh_body_cached by done. by rewrite fetch_fresh. }
  rewrite (generate_with_facts _ w2 _ _ _ Hfacts2).
  rewrite (generate_with_facts _ w _ _ _ Hfacts).
  destruct (fetchSofaJson w2 _) as [body2 st2].
  destruct (fetchSofaJson w st) as [body st']. simpl in Hbody. subst body2.
  destruct (Strings.empty body); [done|].
  by destruct (try_block _ _ _ _ _) as [? [?|?]].
Qed.

End MoreRows.

(** ** More of the feed document *)

(** Line 206.  The latest release is read from exactly the documents that
    are an object whose [OSVersions] is an array starting with an object
    that holds a string [OSVersion]; later elements play no part.  On any
    other document the access throws a type error 302 or 305. *)
Theorem latest_release_shape (j : json) :
  (∀ latest, latest_os_of j = inr latest ↔ names_latest j latest) ∧
  (∀ e, latest_os_of j = inl e → id e = 302%nat ∨ id e = 305%nat).
Proof.
  split; [intros latest; apply latest_os_of_spec|].
  intros e. unfold latest_os_of.
  destruct j as [| | | | |top]; simpl; try (intros [= <-]; eauto; fail).
  destruct (default JNull (top !! "OSVersions")) as [| | | |l|]; simpl;
    try (intros [= <-]; eauto; fail).
  destruct (default JNull (l !! 0%nat)) as [| | | | |first]; simpl;
    try (intros [= <-]; eauto; fail).
  destruct (default JNull (first !! "OSVersion")); simpl;
    intros [= <-]; eauto.
Qed.

(** Lines 216-221.  The lookup throws only for a model that the mapping
    holds with a value other than [null]; the exception is then a type
    error 302 or 305.  A model the mapping does not hold is "Unsupported
    Hardware", whatever else the document contains. *)
Theorem lookup_throws_on_present_model_only (top : gmap string json)
    (model : string) :
  (∀ e, lookup_model (JObject top) model = inl e →
        (id e = 302%nat ∨ id e = 305%nat) ∧
        ∃ models entry,
          top !! "Models" = Some (JObject models) ∧
          models !! model = Some entry ∧ entry ≠ JNull) ∧
  ((∀ models, top !! "Models" = Some (JObject models) →
              models !! model = None) →
   lookup_model (JObject top) model
   = inr ("Unsupported", "Unsupported Hardware")).
Proof.
  unfold lookup_model, model_in_feed, first_supported_os, mret, result_ret.
  simpl.
  destruct (top !! "Models") as [[| | | | |models]|] eqn:Hmodels; simpl;
    try (split; [intros e He; discriminate|intros _; reflexivity]).
  destruct (models !! model) as [entry|] eqn:Hentry; simpl;
    [|split; [intros e He; discriminate|intros _; reflexivity]].
  split; [|intros Hnone; specialize (Hnone models eq_refl); congruence].
  intros e He.
  assert (entry ≠ JNull) as Hnonnull.
  { intros ->. simpl in He. discriminate. }
  split; [|by exists models, entry].
  destruct entry as [| | | | |fields]; simpl in He; simplify_eq/=; eauto.
  destruct (default JNull (fields !! "SupportedOS")) as [| | | |l|o];
    simpl in He; simplify_eq/=; eauto.
  - destruct l as [|[| | | | |] l]; simpl in He; simplify_eq/=; eauto.
  - destruct (bool_decide (size o = 0%nat)); simpl in He; simplify_eq/=; eauto.
Qed.

(** ** The write callback *)

Lemma append_assoc (a b c : string) : (a +:+ b) +:+ c = a +:+ b +:+ c.
Proof.
  induction a as [|x a IH]; [done|].
  change (String x ((a +:+ b) +:+ c) = String x (a +:+ b +:+ c)).
  by rewrite IH.
Qed.

Lemma append_empty (a : string) : a +:+ "" = a.
Proof.
  induction a as [|x a IH]; [done|].
  change (String x (a +:+ "") = String x a). by rewrite IH.
Qed.

(** Lines 18-21.  Over the chunks of a transfer the callback reports every
    chunk as taken in full, so curl never aborts on it, and leaves in the
    buffer what was there followed by the chunks in order. *)
Theorem deliver_accumulates (chunks : list (string * nat * nat))
    (userp : string) :
  Forall chunk_sized chunks →
  deliver chunks userp =
  (map (λ chunk, String.length chunk.1.1) chunks,
   userp +:+ foldr (λ chunk rest, chunk.1.1 +:+ rest) "" chunks).
Proof.
  intros Hsized. revert userp.
  induction Hsized as [|[[contents size] nmemb] chunks Hchunk _ IH];
    intros userp; simpl.
  - by rewrite append_empty.
  - unfold chunk_sized in Hchunk. simpl in Hchunk.
    rewrite IH. rewrite <- Hchunk, substring_all, append_assoc. done.
Qed.

(** ** The properties on the sample feeds *)

Section Samples.

Import Sample.

Local Ltac evaluate := vm_compute; reflexivity.
Local Ltac facts :=
  lazymatch goal with
  | |- host_facts _ ?version ?model =>
    exists {[ "product_version" := version ]}, {[ "hardware_model" := model ]};
    split_and!; reflexivity
  end.

(** Scenarios A, B, C and E of the specification. *)
Example scenario_A :
  (generate parse (world "14.5" "Mac14,7" (ok 200 feed_text (Some "W/1")))
     fresh_store).1
  = Returned [MkRow "14.5" "14" "Mac14,7" "15.0" "14.5" "0" "Fail"].
Proof. evaluate. Qed.

Example scenario_B :
  (generate parse (world "14.5" "Mac99,9" (ok 200 feed_text None))
     fresh_store).1
  = Returned [MkRow "14.5" "14" "Mac99,9" "15.0" "Unsupported" "0"
                "Unsupported Hardware"].
Proof. evaluate. Qed.

Example scenario_C :
  (generate parse (world "14.5" "Mac14,7" offline) fresh_store).1
  = Returned [MkRow "14.5" "14" "Mac14,7"
                "Unknown" "Unknown" "-1" "Could not obtain data"].
Proof. evaluate. Qed.

Example scenario_E :
  (generate parse (world "14.5" "Mac14,7" (ok 200 garbage_text None))
     fresh_store).1
  = Returned [MkRow "14.5" "14" "Mac14,7" "Error" "Error" "-1"
                ("Error parsing data: " +:+ what syntax_error)].
Proof. evaluate. Qed.

(** A number where the first supported release should stand: the model was
    found, the conversion to a string throws. *)
Example number_in_supported_os :
  (generate parse (world "14.5" "Mac14,7" (ok 200 number_text None))
     fresh_store).1
  = Returned [MkRow "14.5" "14" "Mac14,7" "Error" "Error" "-1"
                "Error parsing data: [json.exception.type_error.302] type must be string, but is number"].
Proof. evaluate. Qed.

(** A fresh body and its token are written to the cache, and read back
    as they were written. *)
Example fresh_body_is_cached :
  readFile (fetchSofaJson (world "14.5" "Mac14,7" (ok 200 feed_text (Some "W/1")))
              fresh_store).2 kJsonCache = feed_text ∧
  readFile (fetchSofaJson (world "14.5" "Mac14,7" (ok 200 feed_text (Some "W/1")))
              fresh_store).2 kEtagCache = "W/1".
Proof. split; evaluate. Qed.

(** C3.  The transport call fails while the cache holds a feed: the
    fetcher returns the empty string, the cached feed is not used, and
    the row is the "Could not obtain data" row. *)
Theorem network_error_skips_cache :
  res (transfer (world "14.5" "Mac14,7" offline) (cached feed_text "W/1"))
    ≠ CURLE_OK ∧
  readFile (cached feed_text "W/1") kJsonCache = feed_text ∧
  (fetchSofaJson (world "14.5" "Mac14,7" offline) (cached feed_text "W/1")).1
    = "" ∧
  (generate parse (world "14.5" "Mac14,7" offline) (cached feed_text "W/1")).1
    = Returned [MkRow "14.5" "14" "Mac14,7"
                  "Unknown" "Unknown" "-1" "Could not obtain data"].
Proof. split_and!; [by vm_compute | evaluate..]. Qed.

(** The same cache under a 503: the cached feed is used. *)
Example failed_status_uses_cache :
  (generate parse (world "14.5" "Mac14,7" (ok 503 garbage_text None))
     (cached feed_text "W/1")).1
  = Returned [MkRow "14.5" "14" "Mac14,7" "15.0" "14.5" "0" "Fail"].
Proof. evaluate. Qed.

(** Against C1 as stated: the model is absent from the mapping, the
    status is "Unsupported Hardware", and yet [is_compatible] is true,
    the latest release of the feed being labelled "Unsupported". *)
Lemma unsupported_label_is_compatible :
  feed_models odd_label_value ∅ ∧
  (∅ : gmap string json) !! "Mac99,9" = None ∧
  (generate parse (world "14" "Mac99,9" (ok 200 odd_label_text None))
     fresh_store).1
  = Returned [MkRow "14" "14" "Mac99,9" "Unsupported" "Unsupported" "1"
                "Unsupported Hardware"].
Proof.
  split_and!; [|done|evaluate].
  eexists. split; [reflexivity | evaluate].
Qed.

(** Against C4 as stated: a 304 that carries a token rewrites the token
    file, and so does a 503. *)
Lemma token_rewritten_without_fresh_body :
  http_code (transfer (world "14.5" "Mac14,7" (ok 304 "" (Some "W/2")))
               (cached feed_text "W/1")) = 304 ∧
  files (cached feed_text "W/1") !! kEtagCache = Some "W/1" ∧
  files (fetchSofaJson (world "14.5" "Mac14,7" (ok 304 "" (Some "W/2")))
           (cached feed_text "W/1")).2 !! kEtagCache = Some "W/2" ∧
  files (fetchSofaJson (world "14.5" "Mac14,7" (ok 503 "" (Some "W/3")))
           (cached feed_text "W/1")).2 !! kEtagCache = Some "W/3".
Proof. split_and!; evaluate. Qed.

(** Against C6 as stated: a document without the model mapping is not of
    the expected shape, and its row is no error row. *)
Lemma missing_models_is_no_parse_error :
  ¬ feed_shaped no_models_value ∧
  parse no_models_text = inr no_models_value ∧
  (generate parse (world "14.5" "Mac14,7" (ok 200 no_models_text None))
     fresh_store).1
  = Returned [MkRow "14.5" "14" "Mac14,7" "15.0" "Unsupported" "0"
                "Unsupported Hardware"].
Proof.
  split_and!; [|evaluate..].
  intros (top & versions & models & [= <-] & _ & Hmodels).
  vm_compute in Hmodels. discriminate.
Qed.

(** The lookup on the sample feed: a Mac14,7 is held at 14.5. *)
Lemma lookup_and_verdict_witness :
  host_facts (world "14.5" "Mac14,7" (ok 200 feed_text None)) "14.5" "Mac14,7" ∧
  parse feed_text = inr feed_value ∧
  latest_os_of feed_value = inr "15.0" ∧
  lookup_model feed_value "Mac14,7" = inr ("14.5", "Pass").
Proof.
  split_and!; [facts | evaluate | evaluate |].
  refine (proj1 (lookup_and_verdict parse
                   (world "14.5" "Mac14,7" (ok 200 feed_text None))
                   fresh_store
                   (fetchSofaJson (world "14.5" "Mac14,7" (ok 200 feed_text None))
                      fresh_store).2
                   "14.5" "Mac14,7" feed_text "15.0" feed_value
                   {[ "Mac14,7" := model_value (JString "14.5");
                      "Macmini9,1" := model_value (JString "15.0") ]}
                   _ _ _ _ _ _) "14.5" [] _).
  - facts.
  - evaluate.
  - evaluate.
  - evaluate.
  - evaluate.
  - eexists. split; [reflexivity | evaluate].
  - exists {[ "SupportedOS" := JArray [JString "14.5"] ]}. split; evaluate.
Defined.

(** One row from a host that is offline and has no cache. *)
Lemma generate_exactly_one_row_witness :
  host_facts (world "14.5" "Mac14,7" offline) "14.5" "Mac14,7" ∧
  ∃ r, (generate parse (world "14.5" "Mac14,7" offline) fresh_store).1
       = Returned [r].
Proof.
  split; [facts|].
  apply (generate_exactly_one_row parse _ _ "14.5" "Mac14,7"). facts.
Defined.

(** A 304 over a cache that holds the sample feed. *)
Lemma not_modified_returns_cached_body_witness :
  http_code (transfer (world "14.5" "Mac14,7" (ok 304 "" (Some "W/2")))
               (cached feed_text "W/1")) = 304 ∧
  files (cached feed_text "W/1") !! kJsonCache = Some feed_text ∧
  (fetchSofaJson (world "14.5" "Mac14,7" (ok 304 "" (Some "W/2")))
     (cached feed_text "W/1")).1
  = feed_text.
Proof.
  split; [evaluate|]. split; [evaluate|].
  refine (proj1 (not_modified_returns_cached_body
                   (world "14.5" "Mac14,7" (ok 304 "" (Some "W/2")))
                   (cached feed_text "W/1") _ _ _) feed_text _).
  - split; evaluate.
  - evaluate.
  - evaluate.
  - evaluate.
Defined.

(** A 200 whose body is an HTML error page. *)
Lemma evaluation_failure_row_witness :
  parse garbage_text = inl syntax_error ∧
  generate parse (world "14.5" "Mac14,7" (ok 200 garbage_text None)) fresh_store
  = (Returned [MkRow "14.5" (os_major "14.5") "Mac14,7" "Error" "Error" "-1"
                 ("Error parsing data: " +:+ what syntax_error)],
     (fetchSofaJson (world "14.5" "Mac14,7" (ok 200 garbage_text None))
        fresh_store).2).
Proof.
  split; [evaluate|].
  refine (proj1 (proj2 (evaluation_failure_row parse
                          (world "14.5" "Mac14,7" (ok 200 garbage_text None))
                          fresh_store _ "14.5" "Mac14,7" garbage_text _ _) _)
            syntax_error _).
  - facts.
  - evaluate.
  - discriminate.
  - evaluate.
Defined.

(** The major of 14.5 is 14. *)
Lemma system_os_major_before_first_dot_witness :
  (generate parse (world "14.5" "Mac14,7" offline) fresh_store).1
  = Returned [MkRow "14.5" "14" "Mac14,7"
                "Unknown" "Unknown" "-1" "Could not obtain data"] ∧
  system_os_major (MkRow "14.5" "14" "Mac14,7"
                     "Unknown" "Unknown" "-1" "Could not obtain data") = "14".
Proof.
  split; [evaluate|].
  refine (proj1 (system_os_major_before_first_dot parse
                   (world "14.5" "Mac14,7" offline) fresh_store
                   "14.5" "Mac14,7" _ _ _) "14" "5" _ _).
  - facts.
  - evaluate.
  - reflexivity.
  - simpl. split_and!; done.
Defined.

(** A VirtualMac2,1 is looked up, and reported, as a Macmini9,1. *)
Lemma virtual_model_substituted_witness :
  host_facts (world "14.5" "VirtualMac2,1" (ok 200 feed_text None))
    "14.5" "VirtualMac2,1" ∧
  ∃ r, generate parse (world "14.5" "VirtualMac2,1" (ok 200 feed_text None))
         fresh_store
       = (Returned [r],
          (fetchSofaJson (world "14.5" "VirtualMac2,1" (ok 200 feed_text None))
             fresh_store).2) ∧
       model_identifier r = "Macmini9,1" ∧
       match lookup_model feed_value "Macmini9,1" with
       | inl e => r = error_row "14.5" "Macmini9,1" e
       | inr (compatible, s) =>
         r = verdict_row "14.5" "Macmini9,1" "15.0" compatible s
       end.
Proof.
  split; [facts|].
  apply (virtual_model_substituted parse
           (world "14.5" "VirtualMac2,1" (ok 200 feed_text None))
           fresh_store _ "14.5" "" "2,1" feed_text "15.0" feed_value).
  - facts.
  - evaluate.
  - evaluate.
  - evaluate.
  - evaluate.
Defined.

(** A VirtualMac2,1 that is offline keeps its model in the row. *)
Lemma total_failure_keeps_model_witness :
  fetchSofaJson (world "14.5" "VirtualMac2,1" offline) fresh_store
  = ("", MkStore ∅ {[ kCacheDir ]}) ∧
  generate parse (world "14.5" "VirtualMac2,1" offline) fresh_store
  = (Returned [MkRow "14.5" (os_major "14.5") "VirtualMac2,1"
                 "Unknown" "Unknown" "-1" "Could not obtain data"],
     MkStore ∅ {[ kCacheDir ]}).
Proof.
  split; [evaluate|].
  refine (proj1 (total_failure_keeps_model parse
                   (world "14.5" "VirtualMac2,1" offline) fresh_store
                   "14.5" "VirtualMac2,1" _) _ _).
  - facts.
  - evaluate.
Defined.

(** A 200 with no body over a cache that holds the sample feed. *)
Lemma empty_fresh_body_is_total_failure_witness :
  readBuffer (transfer (world "14.5" "Mac14,7" (ok 200 "" None))
                (cached feed_text "W/1")) = "" ∧
  ∃ st',
    fetchSofaJson (world "14.5" "Mac14,7" (ok 200 "" None))
      (cached feed_text "W/1") = ("", st') ∧
    st' = (writeFile (world "14.5" "Mac14,7" (ok 200 "" None))
             (token_stored (world "14.5" "Mac14,7" (ok 200 "" None))
                (cached feed_text "W/1")) kJsonCache "").2 ∧
    (ofstream_open (world "14.5" "Mac14,7" (ok 200 "" None)) kJsonCache = true →
     files st' !! kJsonCache = Some "") ∧
    generate parse (world "14.5" "Mac14,7" (ok 200 "" None))
      (cached feed_text "W/1")
    = (Returned [MkRow "14.5" (os_major "14.5") "Mac14,7"
                   "Unknown" "Unknown" "-1" "Could not obtain data"], st').
Proof.
  split; [evaluate|].
  apply (empty_fresh_body_is_total_failure parse
           (world "14.5" "Mac14,7" (ok 200 "" None)) (cached feed_text "W/1")
           "14.5" "Mac14,7").
  - facts.
  - split; evaluate.
  - evaluate.
  - evaluate.
  - evaluate.
Defined.

End Samples.

(** ** The further properties on the sample feeds *)

Section MoreSamples.

Import Sample.

Local Ltac evaluated := vm_compute; reflexivity.
Local Ltac known_facts :=
  lazymatch goal with
  | |- host_facts _ ?version ?model =>
    exists {[ "product_version" := version ]}, {[ "hardware_model" := model ]};
    split_and!; reflexivity
  end.
Local Ltac same_calls := split_and!; [intros ?; reflexivity..|reflexivity].


(** A first fetch: the server is asked without an If-None-Match, and its
    feed is what the fetch returns. *)
Lemma fetch_sends_one_request_witness :
  files fresh_store !! kEtagCache = None ∧
  server (MkRequest kSofaUrl kUserAgent []) = ok 200 feed_text (Some "W/1") ∧
  (fetchSofaJson (served "14.5" "Mac14,7") fresh_store).1 = feed_text.
Proof.
  split; [evaluated|]. split; [evaluated|].
  refine (proj1 (proj2 (proj1 (fetch_sends_one_request
                                 (served "14.5" "Mac14,7") fresh_store) _)) _ _).
  - split; evaluated.
  - evaluated.
  - evaluated.
Defined.

(** No curl handle, with the sample feed in the cache. *)
Lemma setup_failure_is_total_failure_witness :
  curl_easy_init (no_handle "14.5" "Mac14,7") = false ∧
  (fetchSofaJson (no_handle "14.5" "Mac14,7") (cached feed_text "W/1")).1 = "" ∧
  files (fetchSofaJson (no_handle "14.5" "Mac14,7") (cached feed_text "W/1")).2
  = files (cached feed_text "W/1") ∧
  (generate parse (no_handle "14.5" "Mac14,7") (cached feed_text "W/1")).1
  = Returned [MkRow "14.5" (os_major "14.5") "Mac14,7"
                "Unknown" "Unknown" "-1" "Could not obtain data"].
Proof.
  split; [evaluated|].
  apply (setup_failure_is_total_failure parse (no_handle "14.5" "Mac14,7")
           (cached feed_text "W/1") "14.5" "Mac14,7").
  - right. evaluated.
  - known_facts.
Defined.

(** A 503 over a cache that holds the sample feed. *)
Lemma returned_body_is_cached_witness :
  files (cached feed_text "W/1") !! kJsonCache = Some feed_text ∧
  (fetchSofaJson (world "14.5" "Mac14,7" (ok 503 garbage_text None))
     (cached feed_text "W/1")).1
  = default "" (files (cached feed_text "W/1") !! kJsonCache) ∧
  files (fetchSofaJson (world "14.5" "Mac14,7" (ok 503 garbage_text None))
           (cached feed_text "W/1")).2 !! kJsonCache
  = files (cached feed_text "W/1") !! kJsonCache.
Proof.
  split; [evaluated|].
  refine (proj2 (proj2 (returned_body_is_cached
                          (world "14.5" "Mac14,7" (ok 503 garbage_text None))
                          (cached feed_text "W/1") _ _ _)) _).
  - split; evaluated.
  - evaluated.
  - evaluated.
  - by vm_compute.
Defined.

(** A 200 on a host whose cache cannot be written. *)
Lemma fresh_body_survives_write_failure_witness :
  (fetchSofaJson (read_only "14.5" "Mac14,7" (ok 200 feed_text (Some "W/2")))
     (cached garbage_text "W/1")).1
  = readBuffer (transfer (read_only "14.5" "Mac14,7" (ok 200 feed_text (Some "W/2")))
                  (cached garbage_text "W/1")) ∧
  files (fetchSofaJson (read_only "14.5" "Mac14,7" (ok 200 feed_text (Some "W/2")))
           (cached garbage_text "W/1")).2
  = files (cached garbage_text "W/1").
Proof.
  apply (fresh_body_survives_write_failure
           (read_only "14.5" "Mac14,7" (ok 200 feed_text (Some "W/2")))
           (cached garbage_text "W/1")).
  - split; evaluated.
  - evaluated.
  - evaluated.
  - intros p. reflexivity.
Defined.

(** The token W/1 of a first response is what the second call sends: the
    server answers it with a 304, and the cached feed is returned. *)
Lemma revalidation_sends_stored_token_witness :
  server (MkRequest kSofaUrl kUserAgent ["If-None-Match: W/1"])
  = ok 304 "" (Some "W/1") ∧
  (fetchSofaJson (served "14.5" "Mac14,7")
     (fetchSofaJson (served "14.5" "Mac14,7") fresh_store).2).1
  = default ""
      (files (fetchSofaJson (served "14.5" "Mac14,7") fresh_store).2
         !! kJsonCache).
Proof.
  split; [evaluated|].
  refine (proj1 (proj2 (proj2 (proj2 (revalidation_sends_stored_token
                                        (served "14.5" "Mac14,7")
                                        (served "14.5" "Mac14,7")
                                        fresh_store "W/1" _ _ _ _ _ _)))) _ _).
  - split; evaluated.
  - evaluated.
  - evaluated.
  - discriminate.
  - evaluated.
  - split; evaluated.
  - evaluated.
  - by vm_compute.
Defined.


(** A host whose tables are empty. *)
Lemma generate_without_host_facts_witness :
  os_version no_tables = [] ∧
  (generate parse no_tables (cached feed_text "W/1")).2
  = cached feed_text "W/1" ∧
  ((generate parse no_tables (cached feed_text "W/1")).1 = Returned [] ∨
   (generate parse no_tables (cached feed_text "W/1")).1 = Thrown_out_of_range) ∧
  (os_version no_tables = [] →
   (generate parse no_tables (cached feed_text "W/1")).1 = Returned []).
Proof.
  split; [reflexivity|].
  apply (generate_without_host_facts parse no_tables (cached feed_text "W/1")).
  intros version model (os & sys & Hos & _). discriminate.
Defined.

(** The "Fail" row of a Mac14,7 against the sample feed. *)
Lemma row_fields_agree_witness :
  status (MkRow "14.5" "14" "Mac14,7" "15.0" "14.5" "0" "Fail") = "Fail" ∧
  ((status (MkRow "14.5" "14" "Mac14,7" "15.0" "14.5" "0" "Fail")
    = "Could not obtain data" ∧
    is_compatible (MkRow "14.5" "14" "Mac14,7" "15.0" "14.5" "0" "Fail") = "-1" ∧
    latest_macos (MkRow "14.5" "14" "Mac14,7" "15.0" "14.5" "0" "Fail")
    = "Unknown" ∧
    latest_compatible_macos (MkRow "14.5" "14" "Mac14,7" "15.0" "14.5" "0" "Fail")
    = "Unknown") ∨
   ((∃ e, status (MkRow "14.5" "14" "Mac14,7" "15.0" "14.5" "0" "Fail")
          = "Error parsing data: " +:+ what e) ∧
    is_compatible (MkRow "14.5" "14" "Mac14,7" "15.0" "14.5" "0" "Fail") = "-1" ∧
    latest_macos (MkRow "14.5" "14" "Mac14,7" "15.0" "14.5" "0" "Fail")
    = "Error" ∧
    latest_compatible_macos (MkRow "14.5" "14" "Mac14,7" "15.0" "14.5" "0" "Fail")
    = "Error") ∨
   (status (MkRow "14.5" "14" "Mac14,7" "15.0" "14.5" "0" "Fail") = "Pass" ∧
    is_compatible (MkRow "14.5" "14" "Mac14,7" "15.0" "14.5" "0" "Fail") = "1" ∧
    latest_macos (MkRow "14.5" "14" "Mac14,7" "15.0" "14.5" "0" "Fail")
    = latest_compatible_macos
        (MkRow "14.5" "14" "Mac14,7" "15.0" "14.5" "0" "Fail")) ∨
   (status (MkRow "14.5" "14" "Mac14,7" "15.0" "14.5" "0" "Fail") = "Fail" ∧
    is_compatible (MkRow "14.5" "14" "Mac14,7" "15.0" "14.5" "0" "Fail") = "0" ∧
    latest_macos (MkRow "14.5" "14" "Mac14,7" "15.0" "14.5" "0" "Fail")
    ≠ latest_compatible_macos
        (MkRow "14.5" "14" "Mac14,7" "15.0" "14.5" "0" "Fail")) ∨
   (status (MkRow "14.5" "14" "Mac14,7" "15.0" "14.5" "0" "Fail")
    = "Unsupported Hardware" ∧
    latest_compatible_macos (MkRow "14.5" "14" "Mac14,7" "15.0" "14.5" "0" "Fail")
    = "Unsupported" ∧
    is_compatible (MkRow "14.5" "14" "Mac14,7" "15.0" "14.5" "0" "Fail")
    = if bool_decide
           (latest_macos (MkRow "14.5" "14" "Mac14,7" "15.0" "14.5" "0" "Fail")
            = "Unsupported")
      then "1" else "0")).
Proof.
  split; [reflexivity|].
  apply (row_fields_agree parse
           (world "14.5" "Mac14,7" (ok 200 feed_text None)) fresh_store
           (MkRow "14.5" "14" "Mac14,7" "15.0" "14.5" "0" "Fail")).
  evaluated.
Defined.

(** The row of a host on 14.5.1. *)
Lemma system_os_major_shape_witness :
  Strings.free_of "."%char
    (system_os_major (MkRow "14.5.1" "14" "Mac14,7" "15.0" "14.5" "0" "Fail")) ∧
  (system_version (MkRow "14.5.1" "14" "Mac14,7" "15.0" "14.5" "0" "Fail")
   = system_os_major (MkRow "14.5.1" "14" "Mac14,7" "15.0" "14.5" "0" "Fail") ∨
   ∃ post,
     system_version (MkRow "14.5.1" "14" "Mac14,7" "15.0" "14.5" "0" "Fail")
     = system_os_major (MkRow "14.5.1" "14" "Mac14,7" "15.0" "14.5" "0" "Fail")
       +:+ "." +:+ post).
Proof.
  apply (system_os_major_shape parse
           (world "14.5.1" "Mac14,7" (ok 200 feed_text None)) fresh_store
           (MkRow "14.5.1" "14" "Mac14,7" "15.0" "14.5" "0" "Fail")).
  evaluated.
Defined.

(** A model that says "Virtual" but not "VirtualMac" is reported as it is. *)
Lemma reported_model_witness :
  model_identifier
    (MkRow "14.5" "14" "VirtualBox1,1" "15.0" "Unsupported" "0"
       "Unsupported Hardware") = "VirtualBox1,1" ∨
  (model_identifier
     (MkRow "14.5" "14" "VirtualBox1,1" "15.0" "Unsupported" "0"
        "Unsupported Hardware") = "Macmini9,1" ∧
   ∃ pre post, "VirtualBox1,1" = pre +:+ "VirtualMac" +:+ post).
Proof.
  apply (reported_model parse
           (world "14.5" "VirtualBox1,1" (ok 200 feed_text None)) fresh_store
           "14.5" "VirtualBox1,1").
  - known_facts.
  - evaluated.
Defined.

(** Two calls against the same server: a 200, then a 304. *)
Lemma generate_again_from_cache_witness :
  (generate parse (served "14.5" "Mac14,7")
     (generate parse (served "14.5" "Mac14,7") fresh_store).2).1
  = (generate parse (served "14.5" "Mac14,7") fresh_store).1.
Proof.
  apply (generate_again_from_cache parse (served "14.5" "Mac14,7")
           (served "14.5" "Mac14,7") fresh_store "14.5" "Mac14,7").
  - known_facts.
  - known_facts.
  - split; evaluated.
  - evaluated.
  - evaluated.
  - evaluated.
  - split; evaluated.
  - evaluated.
  - by vm_compute.
Defined.

(** Two chunks, the second announced as two members of two bytes. *)
Lemma deliver_accumulates_witness :
  deliver [("abc", 1%nat, 3%nat); ("defg", 2%nat, 2%nat)] ""
  = ([3%nat; 4%nat], "abcdefg").
Proof.
  apply (deliver_accumulates [("abc", 1%nat, 3%nat); ("defg", 2%nat, 2%nat)] "").
  repeat constructor.
Defined.

End MoreSamples.
